(** * api-ingestion: the three Lambda handlers, embedded and verified

    The repository holds three request handlers written in Python:

    - [authorizer.py]: the API Gateway token authorizer (JWT check),
    - [ingest_handler.py]: the ingestion endpoint (one DynamoDB put),
    - [weekly_summary_handler.py]: the scheduled aggregator (paginated
      scan, in-memory counting, one S3 put).

    Each handler is translated to a function over explicit state.  The
    managed services (SSM, DynamoDB, S3), the clock and [uuid4] are
    inputs of the functions; library calls whose code is not part of the
    repository (the encoding and signature of a JWT, [json.loads],
    [repr]) are interfaces ([Class]), instantiated in [Examples].
    Logging is left out: it has no effect on any result.

    The definitions come first, one module per source file; the facts
    about each handler follow in a module of their own. *)

From Stdlib Require Import List String Ascii ZArith Bool Lia.
From Stdlib Require Import Permutation Sorted DecimalString.
From Equations Require Import Equations.
Import ListNotations.

Set Warnings "-register-all".

Local Open Scope string_scope.
Local Open Scope Z_scope.

(** ** Python values, exceptions and dictionaries *)

Module Py.

(** A JSON-shaped Python value, as [json.loads] or a JWT payload
    delivers it.  JSON numbers with a fraction are not represented. *)
Inductive pyval : Type :=
| PNone
| PBool (b : bool)
| PInt (n : Z)
| PStr (s : string)
| PList (items : list pyval)
| PDict (entries : list (string * pyval)).

(** The exception classes the handlers raise, catch or let through.
    [InvalidTokenError] stands for [jwt.InvalidTokenError] and all of
    its subclasses but [ExpiredSignatureError], which the authorizer
    names in a clause of its own. *)
Inductive pyexn : Type :=
| ValueError (msg : string)
| KeyError (key : string)
| TypeError (msg : string)
| AttributeError (msg : string)
| ClientError (operation : string)
| JSONDecodeError (msg : string)
| ExpiredSignatureError
| InvalidTokenError (msg : string)
| PyException (msg : string).

(** A computation that returns or raises. *)
Definition result (A : Type) : Type := (pyexn + A)%type.

Definition raise {A : Type} (e : pyexn) : result A := inl e.
Definition ret {A : Type} (a : A) : result A := inr a.

Definition bind {A B : Type} (c : result A) (k : A -> result B) : result B :=
  match c with
  | inl e => inl e
  | inr a => k a
  end.

Notation "x <- c ;; k" := (bind c (fun x => k))
  (at level 61, c at next level, right associativity).

(** A [dict] with [str] keys.  Python dictionaries keep insertion order,
    and [sorted(d.items())] depends on it, so the entries are a list:
    a new key goes to the end, an existing key keeps its place. *)
Definition dict (V : Type) : Type := list (string * V).

Fixpoint dict_get {V : Type} (k : string) (d : dict V) : option V :=
  match d with
  | [] => None
  | (k', v) :: d' => if String.eqb k' k then Some v else dict_get k d'
  end.

(** [d.get(k, dflt)] *)
Definition dict_get_default {V : Type} (k : string) (dflt : V) (d : dict V) : V :=
  match dict_get k d with
  | Some v => v
  | None => dflt
  end.

(** [k in d] *)
Definition dict_contains {V : Type} (k : string) (d : dict V) : bool :=
  match dict_get k d with
  | Some _ => true
  | None => false
  end.

(** [d[k] = v] *)
Fixpoint dict_set {V : Type} (k : string) (v : V) (d : dict V) : dict V :=
  match d with
  | [] => [(k, v)]
  | (k', v') :: d' =>
      if String.eqb k' k then (k', v) :: d' else (k', v') :: dict_set k v d'
  end.

(** [bool(v)] *)
Definition truthy (v : pyval) : bool :=
  match v with
  | PNone => false
  | PBool b => b
  | PInt n => negb (n =? 0)
  | PStr s => negb (String.eqb s "")
  | PList l => match l with [] => false | _ => true end
  | PDict d => match d with [] => false | _ => true end
  end.

(** [str(n)] for an [int]. *)
Definition str_of_int (n : Z) : string :=
  NilZero.string_of_int (Z.to_int n).

(** Built-ins whose code is the interpreter's: [repr] of a list or a
    dictionary, and [int] of a string ([None]: [ValueError]). *)
Class Builtins : Type := {
  repr : pyval -> string;
  int_of_str : string -> option Z
}.

(** [str(v)] *)
Definition str `{Builtins} (v : pyval) : string :=
  match v with
  | PStr s => s
  | PNone => "None"
  | PBool true => "True"
  | PBool false => "False"
  | PInt n => str_of_int n
  | PList _ | PDict _ => repr v
  end.

(** [int(v)] *)
Definition int `{Builtins} (v : pyval) : result Z :=
  match v with
  | PInt n => ret n
  | PBool b => ret (if b then 1 else 0)
  | PStr s =>
      match int_of_str s with
      | Some n => ret n
      | None => raise (ValueError "invalid literal for int() with base 10")
      end
  | PNone | PList _ | PDict _ =>
      raise (TypeError "int() argument must be a string, a bytes-like object or a real number")
  end.

(** A naive or aware [datetime], as microseconds since the epoch in UTC
    (the Lambda runtime's local zone is UTC, so [utcnow().timestamp()]
    and [now(timezone.utc).timestamp()] agree). *)
Definition datetime : Type := Z.

(** [timedelta(days=d)] in microseconds. *)
Definition timedelta_days (d : Z) : Z := d * 86400 * 1000000.

(** [int(t.timestamp())]: [int] truncates toward zero. *)
Definition int_timestamp (t : datetime) : Z := Z.quot t 1000000.

(** The text [t.isoformat()] returns, kept as the value it renders. *)
Inductive iso8601 : Type :=
| isoformat (t : datetime).

(** Two digits, zero padded: the [%m] and [%d] of [strftime]. *)
Definition two_digits (n : Z) : string :=
  if n <? 10 then "0" ++ str_of_int n else str_of_int n.

(** [t.strftime("%Y-%m-%d")], by the usual days-to-civil conversion of
    the proleptic Gregorian calendar (years of four digits). *)
Definition strftime_ymd (t : datetime) : string :=
  let z := t / 86400000000 + 719468 in
  let era := z / 146097 in
  let doe := z - era * 146097 in
  let yoe := (doe - doe / 1460 + doe / 36524 - doe / 146096) / 365 in
  let doy := doe - (365 * yoe + yoe / 4 - yoe / 100) in
  let mp := (5 * doy + 2) / 153 in
  let d := doy - (153 * mp + 2) / 5 + 1 in
  let m := if mp <? 10 then mp + 3 else mp - 9 in
  let y := yoe + era * 400 + (if m <=? 2 then 1 else 0) in
  str_of_int y ++ "-" ++ two_digits m ++ "-" ++ two_digits d.

End Py.

Import Py.

(** ** weekly_summary_handler.py *)

Module WeeklySummary.

(** An item as the scan projects it ([ProjectionExpression="userId,
    eventType, #ts"]).  [timestamp] is the table's sort key, so every
    item has one; [userId] and [eventType] are plain attributes and may
    be absent ([None]). *)
Record item : Type := {
  userId : option string;
  eventType : option string;
  timestamp : Z
}.

(** The table as DynamoDB reads it: a sequence of pages (what one
    [Scan] request evaluates before the filter is applied), and the
    requests that fail ([scan_fault k]: the request that starts at page
    [k] raises [ClientError]). *)
Record dynamodb_table : Type := {
  pages : list (list item);
  scan_fault : nat -> bool
}.

(** The response of one [table.scan] call.  The continuation token
    names the page the next request starts at. *)
Record scan_response : Type := {
  Items : list item;
  LastEvaluatedKey : option nat
}.

(** [FilterExpression="attribute_exists(userId) AND #ts BETWEEN :start
    AND :end"]: [BETWEEN] includes both bounds. *)
Definition filter_expression (start_ts end_ts : Z) (it : item) : bool :=
  match userId it with Some _ => true | None => false end
  && (start_ts <=? timestamp it) && (timestamp it <=? end_ts).

(** [table.scan(..., ExclusiveStartKey=key)]; the first call passes no
    key.  The filter is applied to the page read, and a token is
    returned as long as pages remain. *)
Definition table_scan (table : dynamodb_table) (start_ts end_ts : Z)
    (ExclusiveStartKey : option nat) : result scan_response :=
  let k := match ExclusiveStartKey with Some k => k | None => 0%nat end in
  if scan_fault table k then raise (ClientError "Scan")
  else ret {| Items := filter (filter_expression start_ts end_ts)
                              (nth k (pages table) []);
              LastEvaluatedKey :=
                if (S k <? List.length (pages table))%nat then Some (S k) else None |}.

(** The two counters, [user_stats] and [event_stats]. *)
Definition stats : Type := dict Z.

(** One turn of the [for] loop of [process_items].  [if user_id:] is
    false for an absent ([None]) and for an empty [userId]. *)
Definition process_item (it : item) (st : stats * stats) : stats * stats :=
  let '(user_stats, event_stats) := st in
  let user_id := userId it in
  let event_type := match eventType it with Some e => e | None => "unknown" end in
  let user_stats :=
    match user_id with
    | Some u =>
        if negb (String.eqb u "")
        then dict_set u (dict_get_default u 0 user_stats + 1) user_stats
        else user_stats
    | None => user_stats
    end in
  let event_stats :=
    dict_set event_type (dict_get_default event_type 0 event_stats + 1) event_stats in
  (user_stats, event_stats).

(** [process_items(items, user_stats, event_stats)]: the dictionaries
    are updated in place; here the updated pair is returned. *)
Definition process_items (items : list item) (user_stats event_stats : stats)
    : stats * stats :=
  fold_left (fun st it => process_item it st) items (user_stats, event_stats).

(** What one processed response adds to the three accumulators. *)
Definition account (response : scan_response) (acc : Z * stats * stats)
    : Z * stats * stats :=
  let '(total_count, user_stats, event_stats) := acc in
  let items := Items response in
  let '(user_stats, event_stats) := process_items items user_stats event_stats in
  (total_count + Z.of_nat (List.length items), user_stats, event_stats).

(** Requests still to come after [response]: the measure of the
    pagination loop. *)
Definition requests_left (table : dynamodb_table) (response : scan_response) : nat :=
  match LastEvaluatedKey response with
  | None => 0
  | Some k => S (List.length (pages table) - k)
  end.

Lemma table_scan_progress (table : dynamodb_table) (start_ts end_ts : Z)
    (response response' : scan_response) (key : nat) :
  LastEvaluatedKey response = Some key ->
  table_scan table start_ts end_ts (Some key) = inr response' ->
  (requests_left table response' < requests_left table response)%nat.
Proof.
  unfold table_scan, requests_left. intros -> H.
  destruct (scan_fault table key); [discriminate|].
  injection H as <-. cbn [LastEvaluatedKey].
  destruct (Nat.ltb_spec (S key) (List.length (pages table))); lia.
Qed.

Definition inspect {A : Type} (a : A) : {b : A | a = b} := exist _ a eq_refl.

(** [while "LastEvaluatedKey" in response: ...] *)
Equations scan_loop (table : dynamodb_table) (start_ts end_ts : Z)
    (response : scan_response) (acc : Z * stats * stats)
    : result (Z * stats * stats)
    by wf (requests_left table response) lt :=
  scan_loop table start_ts end_ts response acc
    with inspect (LastEvaluatedKey response) => {
    | exist _ None _ => ret acc
    | exist _ (Some key) Hkey
        with inspect (table_scan table start_ts end_ts (Some key)) => {
        | exist _ (inl e) _ => raise e
        | exist _ (inr response') Hscan =>
            scan_loop table start_ts end_ts response' (account response' acc) } }.
Next Obligation.
  eapply table_scan_progress; eassumption.
Qed.

(** [scan_table(start_timestamp, end_timestamp)] returns
    [(total_count, user_stats, event_stats)]. *)
Definition scan_table (table : dynamodb_table) (start_ts end_ts : Z)
    : result (Z * stats * stats) :=
  response <- table_scan table start_ts end_ts None ;;
  scan_loop table start_ts end_ts response (account response (0, [], [])).

(** [sorted(..., key=lambda x: x[1], reverse=True)].  Python's sort is
    stable, also with [reverse=True]: entries with equal counts keep the
    order they have in the input.  An entry is inserted in front of the
    first one whose count is not larger, which is that sort. *)
Fixpoint insert_by_count (x : string * Z) (l : list (string * Z))
    : list (string * Z) :=
  match l with
  | [] => [x]
  | y :: l' =>
      if snd y <=? snd x then x :: y :: l' else y :: insert_by_count x l'
  end.

Definition sorted_by_count (l : list (string * Z)) : list (string * Z) :=
  fold_right insert_by_count [] l.

(** One [{"name": name, "count": count}] of a ranking. *)
Record top_item : Type := {
  name : string;
  count : Z
}.

(** [get_top_items(stats_dict, limit)] *)
Definition get_top_items (stats_dict : stats) (limit : nat) : list top_item :=
  let sorted_items := sorted_by_count stats_dict in
  map (fun '(name, count) => {| name := name; count := count |})
      (firstn limit sorted_items).

(** The [summary] dictionary of [handler]. *)
Record summary : Type := {
  generated_at : iso8601;
  period_start : iso8601;
  period_end : iso8601;
  total_items : Z;
  unique_users : Z;
  unique_event_types : Z;
  top_users : list top_item;
  top_event_types : list top_item
}.

(** The arguments of one [s3.put_object] call.  [Body] is
    [json.dumps(summary, indent=2)], kept as the summary it renders;
    [Metadata] is the pair of ["generated-at"] and ["total-items"]. *)
Record s3_object : Type := {
  Body : summary;
  ContentType : string;
  ServerSideEncryption : string;
  Metadata : iso8601 * string
}.

(** The bucket, the keys of the [put_object] calls made so far, and
    whether the service refuses the next write. *)
Record s3_state : Type := {
  bucket : dict s3_object;
  put_object_calls : list string;
  put_object_fault : bool
}.

(** [s3.put_object(Bucket=bucket_name, Key=key, ...)]: a refused write
    raises [ClientError] and stores nothing; an accepted one replaces
    whatever the key held. *)
Definition put_object (s3 : s3_state) (key : string) (obj : s3_object)
    : result unit * s3_state :=
  if put_object_fault s3
  then (raise (ClientError "PutObject"),
        {| bucket := bucket s3;
           put_object_calls := put_object_calls s3 ++ [key];
           put_object_fault := put_object_fault s3 |})
  else (ret tt,
        {| bucket := dict_set key obj (bucket s3);
           put_object_calls := put_object_calls s3 ++ [key];
           put_object_fault := put_object_fault s3 |}).

(** [upload_summary_to_s3(summary, timestamp)] returns the key. *)
Definition upload_summary_to_s3 (s3 : s3_state) (summary : summary)
    (timestamp : datetime) : result string * s3_state :=
  let date_str := strftime_ymd timestamp in
  let s3_key := "summaries/weekly-summary-" ++ date_str ++ ".json" in
  let '(r, s3) :=
    put_object s3 s3_key
      {| Body := summary;
         ContentType := "application/json";
         ServerSideEncryption := "AES256";
         Metadata := (isoformat timestamp, str_of_int (total_items summary)) |} in
  (_ <- r ;; ret s3_key, s3).

(** The body of the response, before [json.dumps]. *)
Inductive response_body : Type :=
| Generated (message : string) (total_items : Z) (s3_key : string) (summary : summary)
| Failed (error : string).

Record lambda_response : Type := {
  statusCode : Z;
  body : response_body
}.

(** The window of a run that starts at [end_time]:
    [(start_timestamp, end_timestamp)]. *)
Definition start_time (end_time : datetime) : datetime :=
  end_time - timedelta_days 7.

Definition start_timestamp (end_time : datetime) : Z :=
  int_timestamp (start_time end_time).

Definition end_timestamp (end_time : datetime) : Z :=
  int_timestamp end_time.

(** The [try] block of [handler].  The two inner [except ClientError]
    clauses log and re-raise, so they do not show here. *)
Definition handler_try (utcnow : datetime) (table : dynamodb_table) (s3 : s3_state)
    : result lambda_response * s3_state :=
  let end_time := utcnow in
  match scan_table table (start_timestamp end_time) (end_timestamp end_time) with
  | inl e => (raise e, s3)
  | inr (total_count, user_stats, event_stats) =>
      let summary :=
        {| generated_at := isoformat end_time;
           period_start := isoformat (start_time end_time);
           period_end := isoformat end_time;
           total_items := total_count;
           unique_users := Z.of_nat (List.length user_stats);
           unique_event_types := Z.of_nat (List.length event_stats);
           top_users := get_top_items user_stats 10;
           top_event_types := get_top_items event_stats 10 |} in
      let '(r, s3) := upload_summary_to_s3 s3 summary end_time in
      (s3_key <- r ;;
       ret {| statusCode := 200;
              body := Generated "Summary generated successfully"
                                total_count s3_key summary |},
       s3)
  end.

(** The response of the outer [except Exception] clause. *)
Definition failure_response : lambda_response :=
  {| statusCode := 500; body := Failed "Failed to generate summary" |}.

(** [handler(event, context)]: the scheduled event carries no input, and
    the outer [except Exception] turns every exception into a response
    with status 500. *)
Definition handler (utcnow : datetime) (table : dynamodb_table) (s3 : s3_state)
    : lambda_response * s3_state :=
  match handler_try utcnow table s3 with
  | (inr response, s3) => (response, s3)
  | (inl _, s3) => (failure_response, s3)
  end.

(** *** Reference functions for the statements about the scan *)

(** The two counters do not depend on each other: one turn of the loop
    on [user_stats] alone, and on [event_stats] alone. *)
Definition count_user (user_stats : stats) (it : item) : stats :=
  match userId it with
  | Some u =>
      if negb (String.eqb u "")
      then dict_set u (dict_get_default u 0 user_stats + 1) user_stats
      else user_stats
  | None => user_stats
  end.

Definition event_label (it : item) : string :=
  match eventType it with Some e => e | None => "unknown" end.

Definition count_event (event_stats : stats) (it : item) : stats :=
  dict_set (event_label it) (dict_get_default (event_label it) 0 event_stats + 1)
           event_stats.

(** The items a complete scan returns, over all pages. *)
Definition returned (table : dynamodb_table) (start_ts end_ts : Z) : list item :=
  filter (filter_expression start_ts end_ts) (List.concat (pages table)).

(** Whether one of the requests of a complete scan fails: a scan of [n]
    pages makes [n] requests, and an empty table still takes one. *)
Definition scan_fails (table : dynamodb_table) : bool :=
  existsb (scan_fault table) (seq 0 (Nat.max 1 (List.length (pages table)))).

(** The keys of a list in the order of their first occurrence. *)
Definition first_seen (l : list string) : list string :=
  rev (nodup string_dec (rev l)).

(** The subjects the per-subject counter sees: the non-empty ones. *)
Definition counted_subject (it : item) : list string :=
  match userId it with
  | Some u => if negb (String.eqb u "") then [u] else []
  | None => []
  end.

(** The order of a ranking: no entry is followed by a larger count. *)
Definition count_ge (a b : string * Z) : Prop := snd b <= snd a.

Definition top_item_of (e : string * Z) : top_item :=
  {| name := fst e; count := snd e |}.

End WeeklySummary.

(** ** authorizer.py *)

Module Authorizer.

(** The part of PyJWT that is cryptography and encoding: splitting and
    decoding the compact serialization of a token into the [alg] of its
    header and its payload ([None]: [DecodeError]), and checking an
    HS256 signature of a token under a key. *)
Class PyJWT : Type := {
  jws_load : string -> option (string * dict pyval);
  hs256_verify : string -> string -> bool
}.

(** What the process reads from outside: [os.environ], the parameter
    store ([ssm.get_parameter(Name=..., WithDecryption=True)] and then
    [response['Parameter']['Value']]) and the clock. *)
Record environment : Type := {
  JWT_SECRET_PARAM : option string;
  ssm_get_parameter : string -> result string;
  now : datetime
}.

(** [get_jwt_secret()], over the module-level [_jwt_secret_cache]. *)
Definition get_jwt_secret (env : environment) (_jwt_secret_cache : option string)
    : result string * option string :=
  match _jwt_secret_cache with
  | Some secret => (ret secret, _jwt_secret_cache)
  | None =>
      match JWT_SECRET_PARAM env with
      | None => (raise (KeyError "JWT_SECRET_PARAM"), None)
      | Some param_name =>
          match ssm_get_parameter env param_name with
          | inl e => (raise e, None)
          | inr value => (ret value, Some value)
          end
      end
  end.

(** [jwt.decode]'s checks of the registered claims as PyJWT 2 (from
    2.10 on) documents them, with no leeway and no audience, issuer or
    subject given.  A claim is checked when the payload has it; the
    claim counts seconds, [now] microseconds. *)
Definition validate_iat `{Builtins} (now : datetime) (payload : dict pyval)
    : result unit :=
  match dict_get "iat" payload with
  | None => ret tt
  | Some v =>
      match int v with
      | inl (ValueError _) =>
          raise (InvalidTokenError "Issued At claim (iat) must be an integer.")
      | inl e => raise e
      | inr iat =>
          if now <? iat * 1000000
          then raise (InvalidTokenError "The token is not yet valid (iat)")
          else ret tt
      end
  end.

Definition validate_nbf `{Builtins} (now : datetime) (payload : dict pyval)
    : result unit :=
  match dict_get "nbf" payload with
  | None => ret tt
  | Some v =>
      match int v with
      | inl (ValueError _) =>
          raise (InvalidTokenError "Not Before claim (nbf) must be an integer.")
      | inl e => raise e
      | inr nbf =>
          if now <? nbf * 1000000
          then raise (InvalidTokenError "The token is not yet valid (nbf)")
          else ret tt
      end
  end.

Definition validate_exp `{Builtins} (now : datetime) (payload : dict pyval)
    : result unit :=
  match dict_get "exp" payload with
  | None => ret tt
  | Some v =>
      match int v with
      | inl (ValueError _) =>
          raise (InvalidTokenError "Expiration Time claim (exp) must be an integer.")
      | inl e => raise e
      | inr exp =>
          if exp * 1000000 <=? now
          then raise ExpiredSignatureError
          else ret tt
      end
  end.

Definition validate_aud (payload : dict pyval) : result unit :=
  match dict_get "aud" payload with
  | None => ret tt
  | Some v =>
      if truthy v then raise (InvalidTokenError "Invalid audience") else ret tt
  end.

(** With no subject given, a ["sub"] claim has to be a string. *)
Definition validate_sub (payload : dict pyval) : result unit :=
  match dict_get "sub" payload with
  | None | Some (PStr _) => ret tt
  | Some _ => raise (InvalidTokenError "Subject must be a string")
  end.

(** A ["jti"] claim has to be a string. *)
Definition validate_jti (payload : dict pyval) : result unit :=
  match dict_get "jti" payload with
  | None | Some (PStr _) => ret tt
  | Some _ => raise (InvalidTokenError "JWT ID must be a string")
  end.

(** [jwt.decode(token, secret_key, algorithms=['HS256'],
    options={'verify_exp': True, 'verify_iat': True})] *)
Definition jwt_decode `{Builtins} `{PyJWT} (now : datetime) (token secret_key : string)
    : result (dict pyval) :=
  match jws_load token with
  | None => raise (InvalidTokenError "Not enough segments")
  | Some (alg, payload) =>
      if negb (String.eqb alg "HS256")
      then raise (InvalidTokenError "The specified alg value is not allowed")
      else if negb (hs256_verify token secret_key)
      then raise (InvalidTokenError "Signature verification failed")
      else
        _ <- validate_iat now payload ;;
        _ <- validate_nbf now payload ;;
        _ <- validate_exp now payload ;;
        _ <- validate_aud payload ;;
        _ <- validate_sub payload ;;
        _ <- validate_jti payload ;;
        ret payload
  end.

(** The policy document of [generate_policy]. *)
Record statement : Type := {
  Action : string;
  Effect : string;
  Resource : string
}.

Record policy_document : Type := {
  Version : string;
  Statement : list statement
}.

(** [policy['context']], with its keys [userId], [email] and [scope]. *)
Record policy_context : Type := {
  userId : string;
  email : string;
  scope : string
}.

(** The dictionary [generate_policy] returns; [context] is [None] when
    the key is not set. *)
Record policy : Type := {
  principalId : pyval;
  policyDocument : policy_document;
  context : option policy_context
}.

(** [generate_policy(principal_id, effect, resource, context_data=None)].
    [if context_data:] is false for [None] and for an empty dictionary. *)
Definition generate_policy `{Builtins} (principal_id : pyval) (effect resource : string)
    (context_data : option (dict pyval)) : policy :=
  {| principalId := principal_id;
     policyDocument :=
       {| Version := "2012-10-17";
          Statement := [ {| Action := "execute-api:Invoke";
                            Effect := effect;
                            Resource := resource |} ] |};
     context :=
       match context_data with
       | Some ((_ :: _) as context_data) =>
           Some {| userId := str (dict_get_default "sub" (PStr "") context_data);
                   email := str (dict_get_default "email" (PStr "") context_data);
                   scope := str (dict_get_default "scope" (PStr "") context_data) |}
       | Some [] | None => None
       end |}.

(** The event of a token authorizer.  [authorizationToken] is read with
    [event.get(..., '')], [methodArn] with [event['methodArn']]. *)
Record event : Type := {
  authorizationToken : option string;
  methodArn : option string
}.

(** [event.get('authorizationToken', '')] *)
Definition header (event : event) : string :=
  match authorizationToken event with Some t => t | None => "" end.

(** The [try] block of [handler]. *)
Definition handler_try `{Builtins} `{PyJWT} (env : environment)
    (_jwt_secret_cache : option string) (event : event)
    : result policy * option string :=
  let token := header event in
  if negb (prefix "Bearer " token)
  then (raise (ValueError "Invalid token format"), _jwt_secret_cache)
  else
    let token := substring 7 (String.length token - 7) token in
    let '(r, _jwt_secret_cache) := get_jwt_secret env _jwt_secret_cache in
    (secret_key <- r ;;
     payload <- jwt_decode (now env) token secret_key ;;
     let user_id := dict_get_default "sub" (PStr "unknown") payload in
     resource <- match methodArn event with
                 | Some arn => ret arn
                 | None => raise (KeyError "methodArn")
                 end ;;
     ret (generate_policy user_id "Allow" resource (Some payload)),
     _jwt_secret_cache).

(** [handler(event, context)]: the three [except] clauses, in the order
    of the source. *)
Definition handler `{Builtins} `{PyJWT} (env : environment)
    (_jwt_secret_cache : option string) (event : event)
    : result policy * option string :=
  match handler_try env _jwt_secret_cache event with
  | (inr policy, cache) => (ret policy, cache)
  | (inl ExpiredSignatureError, cache) => (raise (PyException "Unauthorized"), cache)
  | (inl (InvalidTokenError _), cache) => (raise (PyException "Unauthorized"), cache)
  | (inl _, cache) => (raise (PyException "Unauthorized"), cache)
  end.

End Authorizer.

(** ** ingest_handler.py *)

Module Ingest.

(** [json.loads] on a [str]: the value, or [None] for
    [json.JSONDecodeError].  The one fact about the parser the handler
    relies on is that its own default body, ["{}"], is the empty
    object. *)
Class Json : Type := {
  json_loads : string -> option pyval;
  json_loads_empty_object : json_loads "{}" = Some (PDict [])
}.

(** [event["requestContext"]["authorizer"]], as API Gateway fills it
    from the authorizer's [context]. *)
Record authorizer_context : Type := {
  authorizer_userId : option pyval;
  authorizer_email : option pyval
}.

Record request_context : Type := {
  authorizer : option authorizer_context
}.

(** The proxy event.  Every key is read with [.get], so each may be
    absent ([None] here); a [body] key that is present holds a Python
    value, a string for a request with a body. *)
Record event : Type := {
  requestContext : option request_context;
  body : option pyval
}.

(** The item written to the table. *)
Record item : Type := {
  id : string;
  timestamp : Z;
  userId : pyval;
  eventType : pyval;
  data : pyval;
  createdAt : iso8601;
  authenticatedUser : pyval;
  userEmail : pyval
}.

(** What one invocation draws from outside: the value of
    [uuid.uuid4()], the two readings of the clock (for [timestamp] and
    for [createdAt]) and the exception [table.put_item] raises, if any. *)
Record environment : Type := {
  uuid4 : string;
  now_timestamp : datetime;
  now_createdAt : datetime;
  put_item_fault : option pyexn
}.

(** [table.put_item(Item=item)] on the stored items: an item with the
    same primary key [(id, timestamp)] is replaced, a new one added. *)
Fixpoint put_item (table : list item) (it : item) : list item :=
  match table with
  | [] => [it]
  | old :: table' =>
      if String.eqb (id old) (id it) && (timestamp old =? timestamp it)
      then it :: table'
      else old :: put_item table' it
  end.

(** The response of [create_response(status_code, body)]; [body] is kept
    as the dictionary given to [json.dumps]. *)
Record response : Type := {
  statusCode : Z;
  headers : dict string;
  response_body : pyval
}.

Definition create_response (status_code : Z) (body : dict pyval) : response :=
  {| statusCode := status_code;
     headers := [("Content-Type", "application/json");
                 ("Access-Control-Allow-Origin", "*");
                 ("Access-Control-Allow-Headers", "Content-Type,Authorization,X-Api-Key");
                 ("Access-Control-Allow-Methods", "POST,OPTIONS")];
     response_body := PDict body |}.

(** [key in v] for a parsed body: a key of a dictionary, an element of a
    list, a substring of a string; other values are not containers. *)
Definition contains (key : string) (v : pyval) : result bool :=
  match v with
  | PDict d => ret (dict_contains key d)
  | PList l =>
      ret (existsb (fun x => match x with PStr s => String.eqb s key | _ => false end) l)
  | PStr s => ret (match index 0 key s with Some _ => true | None => false end)
  | PNone | PBool _ | PInt _ => raise (TypeError "argument is not iterable")
  end.

(** [v.get(key, dflt)]: only a dictionary has [get]. *)
Definition get (key : string) (dflt : pyval) (v : pyval) : result pyval :=
  match v with
  | PDict d => ret (dict_get_default key dflt d)
  | _ => raise (AttributeError "object has no attribute 'get'")
  end.

(** [str(e)] for the exception in the ["details"] of a database error. *)
Definition str_exn (e : pyexn) : string :=
  match e with
  | ValueError m | KeyError m | TypeError m | AttributeError m
  | ClientError m | JSONDecodeError m | InvalidTokenError m | PyException m => m
  | ExpiredSignatureError => "Signature has expired"
  end.

(** [json.loads(v)]: a value that is not text is a [TypeError]. *)
Definition loads `{Json} (v : pyval) : result pyval :=
  match v with
  | PStr s =>
      match json_loads s with
      | Some parsed => ret parsed
      | None => raise (JSONDecodeError "Expecting value")
      end
  | PNone | PBool _ | PInt _ | PList _ | PDict _ =>
      raise (TypeError "the JSON object must be str, bytes or bytearray")
  end.

(** ["userId" not in body or "data" not in body]: [or] does not look at
    its second operand when the first is true. *)
Definition missing_required_fields (body : pyval) : result bool :=
  has_user <- contains "userId" body ;;
  if negb has_user then ret true
  else (has_data <- contains "data" body ;; ret (negb has_data)).

(** [event.get("requestContext", {}).get("authorizer", {})]; an absent
    key at either level leaves the empty dictionary, which has no
    [userId] and no [email]. *)
Definition authorizer_of (event : event) : authorizer_context :=
  match requestContext event with
  | Some request_context =>
      match authorizer request_context with
      | Some c => c
      | None => {| authorizer_userId := None; authorizer_email := None |}
      end
  | None => {| authorizer_userId := None; authorizer_email := None |}
  end.

(** [authorizer_context.get("userId", "unknown")] *)
Definition user_id_from_token (event : event) : pyval :=
  match authorizer_userId (authorizer_of event) with
  | Some v => v
  | None => PStr "unknown"
  end.

(** [authorizer_context.get("email", "")] *)
Definition user_email (event : event) : pyval :=
  match authorizer_email (authorizer_of event) with
  | Some v => v
  | None => PStr ""
  end.

(** The two rejections with status 400. *)
Definition invalid_payload_response : response :=
  create_response 400 [("error", PStr "Invalid JSON format")].

Definition missing_field_response : response :=
  create_response 400 [("error", PStr "Missing required fields: userId, data")].

(** The outer [try] block of [handler]: a response, or an exception for
    the outer [except Exception]. *)
Definition handler_try `{Json} (env : environment) (table : list item) (event : event)
    : result response * list item :=
  let user_id_from_token := user_id_from_token event in
  let user_email := user_email event in
  match loads (match body event with Some v => v | None => PStr "{}" end) with
  | inl (JSONDecodeError _) => (ret invalid_payload_response, table)
  | inl e => (raise e, table)
  | inr body =>
      match missing_required_fields body with
      | inl e => (raise e, table)
      | inr true => (ret missing_field_response, table)
      | inr false =>
          match (user_id <- get "userId" PNone body ;;
                 event_type <- get "eventType" (PStr "unknown") body ;;
                 data_payload <- get "data" (PDict []) body ;;
                 ret (user_id, event_type, data_payload)) with
          | inl e => (raise e, table)
          | inr (user_id, event_type, data_payload) =>
              let item_id := uuid4 env in
              let timestamp := int_timestamp (now_timestamp env) in
              let item :=
                {| id := item_id;
                   timestamp := timestamp;
                   userId := user_id;
                   eventType := event_type;
                   data := data_payload;
                   createdAt := isoformat (now_createdAt env);
                   authenticatedUser := user_id_from_token;
                   userEmail := user_email |} in
              match put_item_fault env with
              | Some (ClientError op) =>
                  (ret (create_response 500
                          [("error", PStr "Database error");
                           ("details", PStr (str_exn (ClientError op)))]),
                   table)
              | Some e => (raise e, table)
              | None =>
                  (ret (create_response 200
                          [("message", PStr "Data ingested successfully");
                           ("id", PStr item_id);
                           ("timestamp", PInt timestamp)]),
                   put_item table item)
              end
          end
      end
  end.

(** [handler(event, context)] *)
Definition handler `{Json} (env : environment) (table : list item) (event : event)
    : response * list item :=
  match handler_try env table event with
  | (inr response, table) => (response, table)
  | (inl _, table) =>
      (create_response 500 [("error", PStr "Internal server error")], table)
  end.

(** *** Reference values for the statements about a stored request *)

(** The item a request with the parsed body [d] is stored as. *)
Definition item_of (env : environment) (event : event) (d : dict pyval) : item :=
  {| id := uuid4 env;
     timestamp := int_timestamp (now_timestamp env);
     userId := dict_get_default "userId" PNone d;
     eventType := dict_get_default "eventType" (PStr "unknown") d;
     data := dict_get_default "data" (PDict []) d;
     createdAt := isoformat (now_createdAt env);
     authenticatedUser := user_id_from_token event;
     userEmail := user_email event |}.

(** The acknowledgment of a stored item. *)
Definition acknowledgment (it : item) : response :=
  create_response 200 [("message", PStr "Data ingested successfully");
                       ("id", PStr (id it));
                       ("timestamp", PInt (timestamp it))].

End Ingest.

(** ** Instances of the interfaces, for the examples *)

Module Examples.

(** [repr] and [int] of text are not needed by the examples. *)
Definition demo_builtins : Builtins :=
  {| repr := fun _ => "<object>";
     int_of_str := fun _ => None |}.

(** A token store in place of the encoding and the signature: four
    tokens signed with the key [s3cret], everything else malformed. *)
Definition demo_jwt : Authorizer.PyJWT :=
  {| Authorizer.jws_load := fun token =>
       if String.eqb token "expired.token"
       then Some ("HS256", [("sub", PStr "u1"); ("iat", PInt 900); ("exp", PInt 1000)])
       else if String.eqb token "valid.token"
       then Some ("HS256", [("sub", PStr "u1"); ("email", PStr "u1@example.org");
                            ("iat", PInt 1700000000); ("exp", PInt 1900000000)])
       else if String.eqb token "nosub.token"
       then Some ("HS256", [("iat", PInt 1700000000); ("exp", PInt 1900000000)])
       else if String.eqb token "empty.token"
       then Some ("HS256", [])
       else None;
     Authorizer.hs256_verify := fun _ key => String.eqb key "s3cret" |}.

(** The process of the authorizer on 2026-11-04, with the secret in the
    parameter store. *)
Definition demo_authorizer_env : Authorizer.environment :=
  {| Authorizer.JWT_SECRET_PARAM := Some "/api/jwt-secret";
     Authorizer.ssm_get_parameter := fun name =>
       if String.eqb name "/api/jwt-secret" then ret "s3cret"
       else raise (ClientError "GetParameter");
     Authorizer.now := 1793786400000000 |}.

Definition demo_arn : string :=
  "arn:aws:execute-api:eu-west-1:123456789012:api/dev/POST/data".

(** A parser for three bodies (written without their quotation marks). *)
Definition demo_json : Ingest.Json :=
  {| Ingest.json_loads := fun s =>
       if String.eqb s "{}" then Some (PDict [])
       else if String.eqb s "{userId: u1, eventType: click, data: {x: 1}}"
       then Some (PDict [("userId", PStr "u1"); ("eventType", PStr "click");
                         ("data", PDict [("x", PInt 1)])])
       else if String.eqb s "{userId: u1}"
       then Some (PDict [("userId", PStr "u1")])
       else None;
     Ingest.json_loads_empty_object := eq_refl |}.

Definition demo_ingest_env (fault : option pyexn) : Ingest.environment :=
  {| Ingest.uuid4 := "0b0e7c1e-5d0a-4f4e-9d43-6c1e2f3a4b5c";
     Ingest.now_timestamp := 1793786400250000;
     Ingest.now_createdAt := 1793786400250417;
     Ingest.put_item_fault := fault |}.

Definition demo_ingest_event (body : option pyval) : Ingest.event :=
  {| Ingest.requestContext :=
       Some {| Ingest.authorizer :=
                 Some {| Ingest.authorizer_userId := Some (PStr "svc-7");
                         Ingest.authorizer_email := Some (PStr "svc@example.org") |} |};
     Ingest.body := body |}.

(** A table of two pages for the aggregator, and an empty bucket. *)
Definition demo_item (u e : option string) (t : Z) : WeeklySummary.item :=
  {| WeeklySummary.userId := u;
     WeeklySummary.eventType := e;
     WeeklySummary.timestamp := t |}.

Definition demo_s3 (fault : bool) : WeeklySummary.s3_state :=
  {| WeeklySummary.bucket := [];
     WeeklySummary.put_object_calls := [];
     WeeklySummary.put_object_fault := fault |}.

(** A run on 2026-11-04 at 10:00:00 UTC: the window is
    [[1793181600, 1793786400]]. *)
Definition demo_now : datetime := 1793786400000000.

Definition demo_click : WeeklySummary.item := demo_item (Some "u1") (Some "click") 1793700000.
Definition demo_plain : WeeklySummary.item := demo_item (Some "u2") None 1793700100.
Definition demo_view : WeeklySummary.item := demo_item (Some "u1") (Some "view") 1793700200.

(** Records that differ from the rest: one a month old, one without a
    [userId], one with an empty [userId] and no [eventType]. *)
Definition demo_old : WeeklySummary.item := demo_item (Some "u3") (Some "click") 1791000000.
Definition demo_nobody : WeeklySummary.item := demo_item None (Some "click") 1793700300.
Definition demo_blank : WeeklySummary.item := demo_item (Some "") None 1793700400.

Definition demo_table (first_page : list WeeklySummary.item) (fault : nat -> bool) : WeeklySummary.dynamodb_table :=
  {| WeeklySummary.pages := [first_page; [demo_view]]; WeeklySummary.scan_fault := fault |}.

Definition no_fault : nat -> bool := fun _ => false.

Definition demo_stats : WeeklySummary.stats := [("A", 5); ("B", 3); ("C", 5)].

(** An authorizer event with the given header. *)
Definition demo_event (authorization : string) : Authorizer.event :=
  {| Authorizer.authorizationToken := Some authorization;
     Authorizer.methodArn := Some demo_arn |}.

(** The valid body of the examples, and what it parses to. *)
Definition demo_body : string := "{userId: u1, eventType: click, data: {x: 1}}".

Definition demo_parsed : dict pyval :=
  [("userId", PStr "u1"); ("eventType", PStr "click"); ("data", PDict [("x", PInt 1)])].

End Examples.

(** ** generate_jwt.py *)

Module GenerateJwt.

(** [jwt.encode(payload, key, algorithm='HS256')]: the signed compact
    serialization, the counterpart of [Authorizer.PyJWT]. *)
Class PyJWTEncode : Type := {
  jwt_encode : dict pyval -> string -> string
}.

(** [timedelta(hours=h)] in microseconds. *)
Definition timedelta_hours (h : Z) : Z := h * 3600 * 1000000.

(** What [jwt.encode] puts in place of a [datetime] under ["iat"] or
    ["exp"]: [timegm(t.utctimetuple())], the whole seconds of [t]. *)
Definition numeric_date (t : datetime) : pyval := PInt (t / 1000000).

(** The [payload] dictionary of [generate_token], as it is signed.
    [if email:] and [if scope:] are false for [None] and for the empty
    string. *)
Definition token_payload (utcnow : datetime) (user_id : string)
    (email scope : option string) (expiry_hours : Z) : dict pyval :=
  let now := utcnow in
  let payload :=
    [("sub", PStr user_id);
     ("iat", numeric_date now);
     ("exp", numeric_date (now + timedelta_hours expiry_hours))] in
  let payload :=
    match email with
    | Some e => if negb (String.eqb e "") then dict_set "email" (PStr e) payload
                else payload
    | None => payload
    end in
  let payload :=
    match scope with
    | Some s => if negb (String.eqb s "") then dict_set "scope" (PStr s) payload
                else payload
    | None => payload
    end in
  payload.

(** [generate_token(secret_key, user_id, email, scope, expiry_hours)] *)
Definition generate_token `{PyJWTEncode} (utcnow : datetime) (secret_key user_id : string)
    (email scope : option string) (expiry_hours : Z) : string :=
  jwt_encode (token_payload utcnow user_id email scope expiry_hours) secret_key.

End GenerateJwt.

(** ** Reference functions for the statements about the counters *)

Module Reference.

(** The sum of the counts of a counter. *)
Definition dict_sum (d : dict Z) : Z :=
  fold_right (fun e acc => snd e + acc) 0 d.

(** Whether the per-subject counter counts [it] under [u]. *)
Definition counted_under (u : string) (it : WeeklySummary.item) : bool :=
  existsb (String.eqb u) (WeeklySummary.counted_subject it).

(** Whether the per-event-type counter counts [it] under [k]. *)
Definition labelled (k : string) (it : WeeklySummary.item) : bool :=
  String.eqb (WeeklySummary.event_label it) k.

(** The token the authorizer decodes: [token[7:]] of the header. *)
Definition bearer_token (ev : Authorizer.event) : string :=
  substring 7 (String.length (Authorizer.header ev) - 7) (Authorizer.header ev).

(** The key of the report of a run that ends at [end_time]. *)
Definition report_key (end_time : datetime) : string :=
  "summaries/weekly-summary-" ++ strftime_ymd end_time ++ ".json".

(** A table of one page that holds all the items of [table], read
    without a failure. *)
Definition one_page (table : WeeklySummary.dynamodb_table) : WeeklySummary.dynamodb_table :=
  {| WeeklySummary.pages := [List.concat (WeeklySummary.pages table)];
     WeeklySummary.scan_fault := fun _ => false |}.

(** The invocations of the ingest handler one after the other, each
    with the event it is given and with what it draws from outside; the
    table goes from one to the next. *)
Fixpoint serve `{Ingest.Json} (table : list Ingest.item)
    (calls : list (Ingest.environment * Ingest.event))
    : list Ingest.response * list Ingest.item :=
  match calls with
  | [] => ([], table)
  | (env, ev) :: rest =>
      let '(answer, table) := Ingest.handler env table ev in
      let '(answers, table) := serve table rest in
      (answer :: answers, table)
  end.

(** The values [uuid.uuid4()] returns over these invocations. *)
Definition drawn (calls : list (Ingest.environment * Ingest.event)) : list string :=
  map (fun call => Ingest.uuid4 (fst call)) calls.

(** The contract of [uuid.uuid4()] over these invocations: it returns
    a new value at every call, none twice and none that an item of the
    table the process started with already has. *)
Definition uuid4_never_repeats (table0 : list Ingest.item)
    (calls : list (Ingest.environment * Ingest.event)) : Prop :=
  NoDup (drawn calls) /\
  forall old, In old table0 -> ~ In (Ingest.id old) (drawn calls).

End Reference.

(** ** More instances for the examples *)

Module MoreExamples.

(** [email or ''] *)
Definition or_empty (o : option string) : string :=
  match o with Some s => s | None => "" end.

(** The moment the example token is issued: 2026-11-03 10:00:00 UTC. *)
Definition demo_issued : datetime := 1793700000000000.

(** An encoder that hands out one token, and the decoder that knows it:
    the token of user [u1] with an email and no scope, good for 48
    hours, signed with [s3cret]. *)
Definition demo_encoder : GenerateJwt.PyJWTEncode :=
  {| GenerateJwt.jwt_encode := fun _ _ => "generated.token" |}.

Definition demo_decoder : Authorizer.PyJWT :=
  {| Authorizer.jws_load := fun token =>
       if String.eqb token "generated.token"
       then Some ("HS256",
                  GenerateJwt.token_payload demo_issued "u1"
                    (Some "u1@example.org") None 48)
       else if String.eqb token "unsigned.token"
       then Some ("none", [("sub", PStr "admin")])
       else None;
     Authorizer.hs256_verify := fun token key =>
       String.eqb token "generated.token" && String.eqb key "s3cret" |}.

(** Signed tokens without a subject, for the checks of the other
    registered claims: one with a number for its identifier, one
    addressed to an audience. *)
Definition demo_jwt_registered : Authorizer.PyJWT :=
  {| Authorizer.jws_load := fun token =>
       if String.eqb token "jti.token"
       then Some ("HS256", [("jti", PInt 7)])
       else if String.eqb token "aud.token"
       then Some ("HS256", [("aud", PStr "billing-api")])
       else None;
     Authorizer.hs256_verify := fun _ key => String.eqb key "s3cret" |}.

(** The process of the authorizer when the parameter store is down. *)
Definition demo_outage_env : Authorizer.environment :=
  {| Authorizer.JWT_SECRET_PARAM := Some "/api/jwt-secret";
     Authorizer.ssm_get_parameter := fun _ => raise (ClientError "GetParameter");
     Authorizer.now := 1793786400000000 |}.

(** The process after the secret was changed in the parameter store. *)
Definition demo_rotated_env : Authorizer.environment :=
  {| Authorizer.JWT_SECRET_PARAM := Some "/api/jwt-secret";
     Authorizer.ssm_get_parameter := fun _ => ret "n3w-s3cret";
     Authorizer.now := 1793786400000000 |}.

(** A parser for three texts that are JSON but not all objects. *)
Definition demo_json_values : Ingest.Json :=
  {| Ingest.json_loads := fun s =>
       if String.eqb s "{}" then Some (PDict [])
       else if String.eqb s "[]" then Some (PList [])
       else if String.eqb s "42" then Some (PInt 42)
       else None;
     Ingest.json_loads_empty_object := eq_refl |}.

(** A second invocation of the ingest handler, with its own draw of
    [uuid4], one second after the one of [Examples.demo_ingest_env]. *)
Definition demo_retry_env : Ingest.environment :=
  {| Ingest.uuid4 := "7f3f9a52-0c1d-4b7e-8a6f-2d9c4e5b1a00";
     Ingest.now_timestamp := 1793786401250000;
     Ingest.now_createdAt := 1793786401250390;
     Ingest.put_item_fault := None |}.

End MoreExamples.

(** ** Facts about the weekly summary *)

Module WeeklySummaryFacts.
Import WeeklySummary Reference.

Local Open Scope list_scope.

(** *** Dictionaries *)

Lemma dict_get_set_same {V : Type} (k : string) (v : V) (d : dict V) :
  dict_get k (dict_set k v d) = Some v.
Proof.
  induction d as [|[k' v'] d IH]; simpl.
  - now rewrite String.eqb_refl.
  - destruct (String.eqb k' k) eqn:E; simpl; rewrite E; auto.
Qed.

Lemma dict_get_set_other {V : Type} (k k0 : string) (v : V) (d : dict V) :
  k <> k0 -> dict_get k0 (dict_set k v d) = dict_get k0 d.
Proof.
  intros Hne. induction d as [|[k' v'] d IH]; simpl.
  - destruct (String.eqb_spec k k0); congruence.
  - destruct (String.eqb_spec k' k) as [->|Hk]; simpl.
    + destruct (String.eqb_spec k k0); congruence.
    + now rewrite IH.
Qed.

Lemma dict_keys_set {V : Type} (k : string) (v : V) (d : dict V) :
  map fst (dict_set k v d) =
  if dict_contains k d then map fst d else (map fst d ++ [k])%list.
Proof.
  unfold dict_contains.
  induction d as [|[k' v'] d IH]; simpl; [reflexivity|].
  destruct (String.eqb k' k); simpl; [reflexivity|].
  rewrite IH. now destruct (dict_get k d).
Qed.

Lemma dict_contains_keys {V : Type} (k : string) (d : dict V) :
  dict_contains k d = true <-> In k (map fst d).
Proof.
  unfold dict_contains.
  induction d as [|[k' v'] d IH]; simpl.
  - split; [discriminate | tauto].
  - destruct (String.eqb_spec k' k) as [->|Hk].
    + tauto.
    + rewrite IH. split; [tauto | intros [?|?]; [congruence | assumption]].
Qed.

(** *** The counting loop *)

Lemma process_items_split (items : list item) (user_stats event_stats : stats) :
  process_items items user_stats event_stats =
  (fold_left count_user items user_stats, fold_left count_event items event_stats).
Proof.
  unfold process_items.
  revert user_stats event_stats.
  induction items as [|it items IH]; intros; simpl; [reflexivity|].
  apply IH.
Qed.

Lemma count_event_get (k : string) (event_stats : stats) (it : item) :
  dict_get_default k 0 (count_event event_stats it) =
  dict_get_default k 0 event_stats + (if String.eqb (event_label it) k then 1 else 0).
Proof.
  unfold count_event, dict_get_default.
  destruct (String.eqb_spec (event_label it) k) as [<-|Hne].
  - now rewrite dict_get_set_same.
  - rewrite dict_get_set_other by assumption. lia.
Qed.

Lemma fold_count_event_get (k : string) (items : list item) (event_stats : stats) :
  dict_get_default k 0 (fold_left count_event items event_stats) =
  dict_get_default k 0 event_stats
  + Z.of_nat (List.length (filter (fun it => String.eqb (event_label it) k) items)).
Proof.
  revert event_stats.
  induction items as [|it items IH]; intros; simpl; [lia|].
  rewrite IH, count_event_get.
  destruct (String.eqb (event_label it) k); simpl List.length; lia.
Qed.

(** *** The pagination loop *)

(** What a list of returned items adds to the accumulators. *)
Lemma account_items (response : scan_response) (total : Z) (us es : stats) :
  account response (total, us, es) =
  (total + Z.of_nat (List.length (Items response)),
   fold_left count_user (Items response) us,
   fold_left count_event (Items response) es).
Proof.
  unfold account. now rewrite process_items_split.
Qed.

Lemma scan_loop_step (table : dynamodb_table) (start_ts end_ts : Z)
    (response : scan_response) (acc : Z * stats * stats) :
  scan_loop table start_ts end_ts response acc =
  match LastEvaluatedKey response with
  | None => ret acc
  | Some key =>
      match table_scan table start_ts end_ts (Some key) with
      | inl e => raise e
      | inr response' =>
          scan_loop table start_ts end_ts response' (account response' acc)
      end
  end.
Proof.
  funelim (scan_loop table start_ts end_ts response acc).
  - match goal with E : LastEvaluatedKey _ = None |- _ => rewrite E end.
    reflexivity.
  - match goal with E : LastEvaluatedKey _ = Some _ |- _ => rewrite E end.
    match goal with E : table_scan _ _ _ _ = inl _ |- _ => rewrite E end.
    reflexivity.
  - match goal with E : LastEvaluatedKey _ = Some _ |- _ => rewrite E end.
    match goal with E : table_scan _ _ _ _ = inr _ |- _ => rewrite E end.
    reflexivity.
Qed.

Lemma skipn_nth_cons {A : Type} (k : nat) (l : list A) (d : A) :
  (k < List.length l)%nat -> skipn k l = nth k l d :: skipn (S k) l.
Proof.
  revert l. induction k as [|k IH]; intros [|x l] Hk; simpl in *; try lia.
  - reflexivity.
  - apply IH. lia.
Qed.

(** The loop, entered with a token for page [k], reads the pages from
    [k] on: it fails when one of these requests does, and otherwise
    accounts for their filtered items, in order. *)
Lemma scan_loop_pages (table : dynamodb_table) (start_ts end_ts : Z) (n : nat) :
  forall (k : nat) (response : scan_response) (total : Z) (us es : stats),
    LastEvaluatedKey response = Some k ->
    (k < List.length (pages table))%nat ->
    n = (List.length (pages table) - k)%nat ->
    scan_loop table start_ts end_ts response (total, us, es) =
    if existsb (scan_fault table) (seq k n)
    then raise (ClientError "Scan")
    else
      let items := filter (filter_expression start_ts end_ts)
                          (List.concat (skipn k (pages table))) in
      ret (total + Z.of_nat (List.length items),
           fold_left count_user items us,
           fold_left count_event items es).
Proof.
  induction n as [|n IH]; intros k response total us es Hkey Hk Hn; [lia|].
  rewrite scan_loop_step, Hkey.
  unfold table_scan. cbn [seq existsb].
  destruct (scan_fault table k); [reflexivity|]. cbn [orb raise ret].
  rewrite account_items. cbn [Items].
  rewrite (skipn_nth_cons k (pages table) []) by assumption.
  cbn [List.concat]. rewrite filter_app, !fold_left_app, length_app, Nat2Z.inj_add.
  destruct (Nat.ltb_spec (S k) (List.length (pages table))) as [Hlt|Hge].
  - rewrite (IH (S k)); cbn [LastEvaluatedKey]; try reflexivity; try lia.
    destruct (existsb (scan_fault table) (seq (S k) n)); [reflexivity|].
    cbv zeta. now rewrite Z.add_assoc.
  - assert (n = 0%nat) as -> by lia.
    rewrite scan_loop_step. cbn [LastEvaluatedKey seq existsb ret].
    rewrite skipn_all2 by lia. cbn. now rewrite !Z.add_0_r.
Qed.

(** A complete scan: it fails when one of its requests does, and
    otherwise returns the tallies of the filtered items of all pages. *)
Lemma scan_table_returned (table : dynamodb_table) (start_ts end_ts : Z) :
  scan_table table start_ts end_ts =
  if scan_fails table
  then raise (ClientError "Scan")
  else
    let items := returned table start_ts end_ts in
    ret (Z.of_nat (List.length items),
         fold_left count_user items [],
         fold_left count_event items []).
Proof.
  unfold scan_table, scan_fails, returned, table_scan.
  destruct (pages table) as [|p0 ps] eqn:Hp.
  - cbn [List.length Nat.max seq existsb].
    destruct (scan_fault table 0); [reflexivity|]. cbn [orb bind ret].
    rewrite account_items, scan_loop_step. cbn. reflexivity.
  - replace (Nat.max 1 (List.length (p0 :: ps))) with (S (List.length ps))
      by (cbn [List.length]; lia).
    cbn [seq existsb].
    destruct (scan_fault table 0); [reflexivity|]. cbn [orb bind ret nth].
    rewrite account_items. cbn [Items List.concat].
    rewrite filter_app, !fold_left_app, length_app, Nat2Z.inj_add.
    destruct ps as [|p1 ps].
    + cbn [List.length Nat.ltb Nat.leb]. rewrite scan_loop_step. cbn.
      now rewrite Z.add_0_r.
    + cbn [List.length]. 
      replace (1 <? S (S (List.length ps)))%nat with true
        by (symmetry; apply Nat.ltb_lt; lia).
      rewrite (scan_loop_pages table start_ts end_ts (S (List.length ps)) 1);
        cbn [LastEvaluatedKey]; rewrite ?Hp; cbn [List.length skipn].
      all: try reflexivity.
      lia.
Qed.

(** *** One record more or less in the table *)

Section OneRecord.

Variables (fault : nat -> bool) (start_ts end_ts : Z).
Variables (before after : list (list item)) (pre post : list item) (r : item).

Let table_with : dynamodb_table :=
  {| pages := before ++ (pre ++ r :: post) :: after; scan_fault := fault |}.
Let table_without : dynamodb_table :=
  {| pages := before ++ (pre ++ post) :: after; scan_fault := fault |}.

Let ahead : list item :=
  filter (filter_expression start_ts end_ts) (List.concat before ++ pre).
Let behind : list item :=
  filter (filter_expression start_ts end_ts) (post ++ List.concat after).

Lemma scan_fails_one_record : scan_fails table_with = scan_fails table_without.
Proof.
  unfold scan_fails, table_with, table_without. cbn [pages scan_fault].
  now rewrite !length_app.
Qed.

Lemma returned_without : returned table_without start_ts end_ts = (ahead ++ behind)%list.
Proof.
  unfold returned, table_without, ahead, behind. cbn [pages].
  rewrite concat_app. cbn [List.concat].
  now rewrite <- filter_app, <- !app_assoc.
Qed.

Lemma returned_with :
  returned table_with start_ts end_ts =
  if filter_expression start_ts end_ts r
  then (ahead ++ r :: behind)%list
  else (ahead ++ behind)%list.
Proof.
  unfold returned, table_with, ahead, behind. cbn [pages].
  rewrite concat_app. cbn [List.concat].
  rewrite <- !app_assoc, !filter_app. cbn [app filter].
  destruct (filter_expression start_ts end_ts r);
    now rewrite <- !app_assoc, ?filter_app.
Qed.

(** A record the filter rejects leaves the whole result as it is. *)
Lemma scan_table_rejected :
  filter_expression start_ts end_ts r = false ->
  scan_table table_with start_ts end_ts = scan_table table_without start_ts end_ts.
Proof.
  intros Hr. rewrite !scan_table_returned, scan_fails_one_record.
  now rewrite returned_with, Hr, returned_without.
Qed.

(** A record the filter accepts is one more in the total, and one more
    under its event label; with an empty [userId] it leaves
    [user_stats] as it is. *)
Lemma scan_table_accepted (total : Z) (user_stats event_stats : stats) :
  filter_expression start_ts end_ts r = true ->
  scan_table table_without start_ts end_ts = inr (total, user_stats, event_stats) ->
  exists user_stats' event_stats',
    scan_table table_with start_ts end_ts = inr (total + 1, user_stats', event_stats') /\
    (userId r = Some "" -> user_stats' = user_stats) /\
    (forall k, dict_get_default k 0 event_stats' =
               dict_get_default k 0 event_stats
               + (if String.eqb (event_label r) k then 1 else 0)).
Proof.
  intros Hr. rewrite !scan_table_returned, scan_fails_one_record.
  rewrite returned_with, Hr, returned_without.
  destruct (scan_fails table_without); [discriminate|].
  cbv zeta. unfold ret. intros H. injection H as <- <- <-.
  eexists _, _. split; [|split].
  - f_equal. f_equal. f_equal.
    rewrite !length_app. cbn [List.length]. lia.
  - intros Hu. rewrite !fold_left_app. cbn [fold_left].
    unfold count_user at 2. now rewrite Hu.
  - intros k. rewrite !fold_count_event_get, !filter_app. cbn [filter].
    destruct (String.eqb (event_label r) k);
      rewrite !length_app; cbn [List.length]; lia.
Qed.

End OneRecord.

(** *** The window *)

Lemma start_time_seven_days (end_time : datetime) :
  start_time end_time = end_time - 7 * 86400 * 1000000.
Proof. reflexivity. Qed.



(** What the scan returns lies in the window and has a subject. *)
Lemma returned_in_window (table : dynamodb_table) (start_ts end_ts : Z) (it : item) :
  In it (returned table start_ts end_ts) ->
  start_ts <= timestamp it <= end_ts /\ userId it <> None.
Proof.
  unfold returned. rewrite filter_In. unfold filter_expression.
  intros [_ H]. apply andb_prop in H as [H Hend]. apply andb_prop in H as [Hu Hstart].
  apply Z.leb_le in Hstart, Hend.
  split; [lia|]. now destruct (userId it).
Qed.





(** *** Records without a subject *)

(** C2 (amended). A stored record whose [userId] attribute is absent
    does not pass the scan's filter ([attribute_exists(userId)]): it is
    in no count, the total included.  A record the scan returns is one
    more in the total; when its [userId] is empty it is left out of the
    per-subject counters, and when it has no [eventType] it is counted
    under ["unknown"]. *)
Theorem scan_table_missing_subject :
  forall (fault : nat -> bool) (start_ts end_ts : Z)
         (before after : list (list item)) (pre post : list item) (r : item),
    let table_with :=
      {| pages := before ++ (pre ++ r :: post) :: after; scan_fault := fault |} in
    let table_without :=
      {| pages := before ++ (pre ++ post) :: after; scan_fault := fault |} in
    (userId r = None ->
     scan_table table_with start_ts end_ts = scan_table table_without start_ts end_ts) /\
    (forall (u : string) (total : Z) (user_stats event_stats : stats),
       userId r = Some u ->
       start_ts <= timestamp r <= end_ts ->
       scan_table table_without start_ts end_ts = inr (total, user_stats, event_stats) ->
       exists user_stats' event_stats',
         scan_table table_with start_ts end_ts =
           inr (total + 1, user_stats', event_stats') /\
         (u = "" -> user_stats' = user_stats) /\
         (eventType r = None ->
          dict_get_default "unknown" 0 event_stats' =
          dict_get_default "unknown" 0 event_stats + 1)).
Proof.
  intros fault start_ts end_ts before after pre post r table_with table_without.
  split.
  - intros Hu. apply scan_table_rejected.
    unfold filter_expression. now rewrite Hu.
  - intros u total user_stats event_stats Hu Hts Hscan.
    destruct (scan_table_accepted fault start_ts end_ts before after pre post r
                total user_stats event_stats) as (us' & es' & H1 & H2 & H3).
    + unfold filter_expression. rewrite Hu.
      destruct (Z.leb_spec start_ts (timestamp r)), (Z.leb_spec (timestamp r) end_ts);
        try lia; reflexivity.
    + exact Hscan.
    + exists us', es'. split; [exact H1|]. split.
      * intros ->. now apply H2.
      * intros He. rewrite H3. unfold event_label. now rewrite He.
Qed.

(** *** Failures *)

Lemma put_object_bucket_on_fault (s3 : s3_state) (key : string) (obj : s3_object) :
  put_object_fault s3 = true ->
  put_object s3 key obj =
  (raise (ClientError "PutObject"),
   {| bucket := bucket s3;
      put_object_calls := put_object_calls s3 ++ [key];
      put_object_fault := put_object_fault s3 |}).
Proof.
  unfold put_object. now intros ->.
Qed.

(** A failed scan ends the run before the bucket is touched. *)
Lemma handler_scan_fault (utcnow : datetime) (table : dynamodb_table) (s3 : s3_state) :
  scan_fails table = true ->
  handler utcnow table s3 = (failure_response, s3).
Proof.
  intros Hscan. unfold handler, handler_try.
  now rewrite scan_table_returned, Hscan.
Qed.

(** A refused write ends the run with one call made and nothing stored. *)
Lemma handler_put_fault (utcnow : datetime) (table : dynamodb_table) (s3 : s3_state) :
  scan_fails table = false ->
  put_object_fault s3 = true ->
  exists key : string,
    handler utcnow table s3 =
    (failure_response,
     {| bucket := bucket s3;
        put_object_calls := put_object_calls s3 ++ [key];
        put_object_fault := put_object_fault s3 |}).
Proof.
  intros Hscan Hput. unfold handler, handler_try, upload_summary_to_s3.
  rewrite scan_table_returned, Hscan. cbv zeta. unfold ret at 1. cbv iota beta.
  rewrite put_object_bucket_on_fault by assumption.
  eexists. reflexivity.
Qed.

(** C6. When a request of the scan fails, or the write to the bucket
    does, the run answers with status 500 and the bucket holds what it
    held before; when the scan fails, [scan_table] raises and no
    [put_object] call is made at all. *)
Theorem handler_failure_writes_nothing :
  forall (utcnow : datetime) (table : dynamodb_table) (s3 : s3_state),
    scan_fails table = true \/ put_object_fault s3 = true ->
    statusCode (fst (handler utcnow table s3)) = 500 /\
    body (fst (handler utcnow table s3)) = Failed "Failed to generate summary" /\
    bucket (snd (handler utcnow table s3)) = bucket s3 /\
    (scan_fails table = true ->
     scan_table table (start_timestamp utcnow) (end_timestamp utcnow) =
       raise (ClientError "Scan") /\
     put_object_calls (snd (handler utcnow table s3)) = put_object_calls s3).
Proof.
  intros utcnow table s3 H.
  destruct (scan_fails table) eqn:Hscan.
  - rewrite (handler_scan_fault utcnow table s3 Hscan).
    rewrite scan_table_returned, Hscan. repeat split; reflexivity.
  - destruct H as [H|Hput]; [discriminate|].
    destruct (handler_put_fault utcnow table s3 Hscan Hput) as [key ->].
    repeat split; try reflexivity; discriminate.
Qed.

(** *** The ranking *)

Lemma insert_by_count_perm (x : string * Z) (l : list (string * Z)) :
  Permutation (insert_by_count x l) (x :: l).
Proof.
  induction l as [|y l IH]; simpl; [reflexivity|].
  destruct (snd y <=? snd x); [reflexivity|].
  rewrite IH. apply perm_swap.
Qed.

Lemma sorted_by_count_perm (l : list (string * Z)) :
  Permutation (sorted_by_count l) l.
Proof.
  induction l as [|x l IH]; simpl; [reflexivity|].
  rewrite insert_by_count_perm. now constructor.
Qed.

Lemma insert_by_count_sorted (x : string * Z) (l : list (string * Z)) :
  StronglySorted count_ge l -> StronglySorted count_ge (insert_by_count x l).
Proof.
  induction 1 as [|y l Hs IH Hy]; simpl.
  - repeat constructor.
  - destruct (Z.leb_spec (snd y) (snd x)) as [Hle|Hgt].
    + constructor; [now constructor|].
      constructor; [exact Hle|].
      eapply Forall_impl; [|exact Hy].
      unfold count_ge. intros; lia.
    + constructor; [exact IH|].
      rewrite insert_by_count_perm.
      constructor; [unfold count_ge; lia | exact Hy].
Qed.

Lemma sorted_by_count_sorted (l : list (string * Z)) :
  StronglySorted count_ge (sorted_by_count l).
Proof.
  induction l as [|x l IH]; simpl; [constructor|].
  now apply insert_by_count_sorted.
Qed.

(** The sort is stable: the entries of any one count come out in the
    order they went in. *)
Lemma insert_by_count_stable (c : Z) (x : string * Z) (l : list (string * Z)) :
  filter (fun e => snd e =? c) (insert_by_count x l) =
  filter (fun e => snd e =? c) (x :: l).
Proof.
  induction l as [|y l IH]; [reflexivity|].
  cbn [insert_by_count].
  destruct (Z.leb_spec (snd y) (snd x)) as [Hle|Hgt]; [reflexivity|].
  cbn [filter] in *. rewrite IH.
  destruct (Z.eqb_spec (snd x) c), (Z.eqb_spec (snd y) c); try reflexivity; lia.
Qed.

Lemma sorted_by_count_stable (c : Z) (l : list (string * Z)) :
  filter (fun e => snd e =? c) (sorted_by_count l) = filter (fun e => snd e =? c) l.
Proof.
  induction l as [|x l IH]; [reflexivity|].
  cbn [sorted_by_count fold_right]. rewrite insert_by_count_stable.
  cbn [filter]. fold (sorted_by_count l). now rewrite IH.
Qed.

(** The order of the keys of the counters: first occurrence in the
    items the scan returned. *)
Lemma first_seen_snoc (l : list string) (x : string) :
  first_seen (l ++ [x]) = if in_dec string_dec x l then first_seen l else first_seen l ++ [x].
Proof.
  unfold first_seen. rewrite rev_unit. cbn [nodup].
  destruct (in_dec string_dec x (rev l)) as [Hin|Hin], (in_dec string_dec x l) as [Hin'|Hin'];
    try reflexivity.
  - exfalso. apply Hin'. exact (proj2 (in_rev l x) Hin).
  - exfalso. apply Hin. exact (proj1 (in_rev l x) Hin').
Qed.

Lemma first_seen_In (l : list string) (x : string) : In x (first_seen l) <-> In x l.
Proof.
  unfold first_seen. rewrite <- in_rev, nodup_In, <- in_rev. reflexivity.
Qed.

Lemma count_event_keys (items : list item) :
  map fst (fold_left count_event items []) = first_seen (map event_label items).
Proof.
  induction items as [|it items IH] using rev_ind; [reflexivity|].
  rewrite fold_left_app, map_app. cbn [fold_left map].
  rewrite first_seen_snoc. unfold count_event at 1.
  rewrite dict_keys_set, IH.
  destruct (in_dec string_dec (event_label it) (map event_label items)) as [Hin|Hin].
  - apply (proj2 (first_seen_In _ _)) in Hin. rewrite <- IH in Hin.
    apply (proj2 (dict_contains_keys _ _)) in Hin. now rewrite Hin.
  - destruct (dict_contains (event_label it) (fold_left count_event items [])) eqn:E;
      [|reflexivity].
    apply (proj1 (dict_contains_keys _ _)) in E. rewrite IH in E.
    apply (proj1 (first_seen_In _ _)) in E. contradiction.
Qed.

Lemma count_user_keys (items : list item) :
  map fst (fold_left count_user items []) = first_seen (flat_map counted_subject items).
Proof.
  induction items as [|it items IH] using rev_ind; [reflexivity|].
  rewrite fold_left_app, flat_map_app. cbn [fold_left flat_map].
  rewrite app_nil_r. unfold count_user at 1, counted_subject at 2.
  destruct (userId it) as [u|]; [|now rewrite app_nil_r].
  destruct (negb (String.eqb u "")); [|now rewrite app_nil_r].
  rewrite first_seen_snoc, dict_keys_set, IH.
  destruct (in_dec string_dec u (flat_map counted_subject items)) as [Hin|Hin].
  - apply (proj2 (first_seen_In _ _)) in Hin. rewrite <- IH in Hin.
    apply (proj2 (dict_contains_keys _ _)) in Hin. now rewrite Hin.
  - destruct (dict_contains u (fold_left count_user items [])) eqn:E; [|reflexivity].
    apply (proj1 (dict_contains_keys _ _)) in E. rewrite IH in E.
    apply (proj1 (first_seen_In _ _)) in E. contradiction.
Qed.

Lemma get_top_items_firstn (stats_dict : stats) (limit : nat) :
  get_top_items stats_dict limit =
  map top_item_of (firstn limit (sorted_by_count stats_dict)).
Proof.
  unfold get_top_items. apply map_ext. now intros [n c].
Qed.

Lemma filter_map_top_item (c : Z) (l : list (string * Z)) :
  filter (fun e => count e =? c) (map top_item_of l) =
  map top_item_of (filter (fun e => snd e =? c) l).
Proof.
  induction l as [|x l IH]; [reflexivity|].
  cbn [map filter]. rewrite IH. cbn [top_item_of count].
  now destruct (snd x =? c).
Qed.

Lemma sorted_map_top_item (l : list (string * Z)) :
  StronglySorted count_ge l ->
  StronglySorted (fun a b => count b <= count a) (map top_item_of l).
Proof.
  induction 1 as [|x l Hs IH Hx]; cbn [map]; constructor; [exact IH|].
  apply Forall_map. exact Hx.
Qed.

Lemma sorted_app_l {A : Type} (R : A -> A -> Prop) (l1 l2 : list A) :
  StronglySorted R (l1 ++ l2) -> StronglySorted R l1.
Proof.
  induction l1 as [|x l1 IH]; cbn [app]; intros H; [constructor|].
  inversion H as [|? ? Hs Hx]; subst. constructor; [now apply IH|].
  apply Forall_app in Hx. tauto.
Qed.

(** C4. For every counter dictionary, [get_top_items] with limit 10
    returns at most 10 entries, in descending order of count; they are
    the first 10 of a list that holds every entry of the dictionary, is
    in descending order of count as a whole, and in which the entries
    of any one count stand in the order they have in the dictionary (no
    second sort key).  The order of the dictionaries [scan_table]
    builds is the order in which the scan first returned each key. *)
Theorem get_top_items_ranking :
  forall stats_dict : stats,
    let top := get_top_items stats_dict 10 in
    (List.length top <= 10)%nat /\
    List.length top = Nat.min 10 (List.length stats_dict) /\
    StronglySorted (fun a b => count b <= count a) top /\
    (exists rest : list top_item,
       StronglySorted (fun a b => count b <= count a) (top ++ rest) /\
       Permutation (top ++ rest) (map top_item_of stats_dict) /\
       forall c : Z,
         filter (fun e => count e =? c) (top ++ rest) =
         map top_item_of (filter (fun e => snd e =? c) stats_dict)) /\
    (forall (table : dynamodb_table) (start_ts end_ts total : Z)
            (user_stats event_stats : stats),
       scan_table table start_ts end_ts = inr (total, user_stats, event_stats) ->
       map fst user_stats =
         first_seen (flat_map counted_subject (returned table start_ts end_ts)) /\
       map fst event_stats =
         first_seen (map event_label (returned table start_ts end_ts))).
Proof.
  intros stats_dict top. subst top. rewrite get_top_items_firstn.
  assert (Hall : map top_item_of (firstn 10 (sorted_by_count stats_dict))
                 ++ map top_item_of (skipn 10 (sorted_by_count stats_dict))
                 = map top_item_of (sorted_by_count stats_dict)).
  { now rewrite <- map_app, firstn_skipn. }
  assert (Hsorted : StronglySorted (fun a b => count b <= count a)
                      (map top_item_of (sorted_by_count stats_dict))).
  { apply sorted_map_top_item, sorted_by_count_sorted. }
  split; [|split; [|split; [|split]]].
  - rewrite length_map, length_firstn. lia.
  - rewrite length_map, length_firstn.
    now rewrite (Permutation_length (sorted_by_count_perm stats_dict)).
  - apply sorted_app_l with (l2 := map top_item_of (skipn 10 (sorted_by_count stats_dict))).
    now rewrite Hall.
  - exists (map top_item_of (skipn 10 (sorted_by_count stats_dict))).
    rewrite Hall. split; [exact Hsorted|]. split.
    + apply Permutation_map, sorted_by_count_perm.
    + intros c. now rewrite filter_map_top_item, sorted_by_count_stable.
  - intros table start_ts end_ts total user_stats event_stats.
    rewrite scan_table_returned.
    destruct (scan_fails table); [discriminate|].
    cbv zeta. unfold ret. intros H. injection H as _ <- <-.
    split; [apply count_user_keys | apply count_event_keys].
Qed.

(** *** The claims on an example table *)

Import Examples.



Lemma scan_table_missing_subject_witness :
  (scan_table (demo_table [demo_click; demo_nobody; demo_plain] no_fault)
              1793181600 1793786400 =
   scan_table (demo_table [demo_click; demo_plain] no_fault) 1793181600 1793786400) /\
  exists user_stats' event_stats',
    scan_table (demo_table [demo_click; demo_blank; demo_plain] no_fault)
               1793181600 1793786400 =
      inr (3 + 1, user_stats', event_stats') /\
    user_stats' = [("u1", 2); ("u2", 1)] /\
    dict_get_default "unknown" 0 event_stats' = 1 + 1.
Proof.
  split.
  - apply (scan_table_missing_subject no_fault 1793181600 1793786400
             [] [[demo_view]] [demo_click] [demo_plain] demo_nobody).
    reflexivity.
  - destruct (proj2 (scan_table_missing_subject no_fault 1793181600 1793786400
                       [] [[demo_view]] [demo_click] [demo_plain] demo_blank)
                EmptyString 3 [("u1", 2); ("u2", 1)]
                [("click", 1); ("unknown", 1); ("view", 1)])
      as (us' & es' & H1 & H2 & H3); try reflexivity.
    + cbn. lia.
    + exists us', es'. split; [exact H1|]. split; [now apply H2 | now apply H3].
Defined.

(** C2, as stated, fails: the table holds one record in the window,
    with no [userId]; the scan counts it nowhere, and the total is 0. *)
Lemma missing_subject_not_in_total :
  let table := {| pages := [[demo_nobody]]; scan_fault := no_fault |} in
  List.length (filter (fun it => (1793181600 <=? timestamp it)
                                 && (timestamp it <=? 1793786400))
                      (List.concat (pages table))) = 1%nat /\
  userId demo_nobody = None /\
  scan_table table 1793181600 1793786400 = inr (0, [], []).
Proof.
  repeat split.
Qed.

Lemma handler_failure_writes_nothing_witness :
  let fault := fun k => Nat.eqb k 1 in
  let run := handler demo_now (demo_table [demo_click; demo_plain] fault) (demo_s3 false) in
  statusCode (fst run) = 500 /\
  bucket (snd run) = [] /\
  put_object_calls (snd run) = [].
Proof.
  intros fault run.
  destruct (handler_failure_writes_nothing demo_now
              (demo_table [demo_click; demo_plain] fault) (demo_s3 false))
    as (H1 & _ & H3 & H4).
  - left. reflexivity.
  - split; [exact H1|]. split; [exact H3|]. apply H4. reflexivity.
Defined.

Lemma get_top_items_ranking_witness :
  (List.length (get_top_items demo_stats 10) <= 10)%nat /\
  StronglySorted (fun a b => count b <= count a) (get_top_items demo_stats 10).
Proof.
  destruct (get_top_items_ranking demo_stats) as (H1 & _ & H3 & _).
  split; assumption.
Defined.

(** The example of the specification: with A: 5, B: 3, C: 5 the two
    leaders are A and C, in the order of the dictionary. *)
Example get_top_items_tie :
  get_top_items demo_stats 2 =
  [ {| name := "A"; count := 5 |}; {| name := "C"; count := 5 |} ].
Proof. reflexivity. Qed.

(** Three records in the window, two users, two event types. *)
Example scan_table_three_records :
  scan_table {| pages := [[demo_click; demo_old]; [demo_plain; demo_click]];
                scan_fault := no_fault |}
             (start_timestamp demo_now) (end_timestamp demo_now) =
  inr (3, [("u1", 2); ("u2", 1)], [("click", 2); ("unknown", 1)]).
Proof. reflexivity. Qed.

End WeeklySummaryFacts.

(** ** Facts about the authorizer *)

Module AuthorizerFacts.
Import Authorizer.

Section Handler.

Context {builtins : Builtins} {pyjwt : PyJWT}.

Lemma substring_all (s : string) : substring 0 (String.length s) s = s.
Proof.
  induction s as [|c s IH]; [reflexivity|]. cbn. now rewrite IH.
Qed.

(** [("Bearer " + token)[7:]] *)
Lemma strip_bearer (token : string) :
  substring 7 (String.length ("Bearer " ++ token) - 7) ("Bearer " ++ token) = token.
Proof.
  cbn. rewrite Nat.sub_0_r. apply substring_all.
Qed.

Lemma prefix_bearer (token : string) : prefix "Bearer " ("Bearer " ++ token) = true.
Proof.
  cbn. repeat (match goal with |- context [Ascii.ascii_dec ?a ?b] =>
                 destruct (Ascii.ascii_dec a b); [|congruence] end).
  now destruct token.
Qed.

(** Whatever is raised inside the [try] block leaves the handler as
    [Exception('Unauthorized')]. *)
Lemma handler_of_try (env : environment) (cache : option string) (ev : event) :
  handler env cache ev =
  match handler_try env cache ev with
  | (inr p, cache') => (ret p, cache')
  | (inl _, cache') => (raise (PyException "Unauthorized"), cache')
  end.
Proof.
  unfold handler. destruct (handler_try env cache ev) as [[e|p] cache'];
    [destruct e|]; reflexivity.
Qed.

Lemma handler_error_unauthorized (env : environment) (cache : option string)
    (ev : event) (e : pyexn) :
  fst (handler env cache ev) = inl e -> e = PyException "Unauthorized".
Proof.
  rewrite handler_of_try.
  destruct (handler_try env cache ev) as [[e'|p] cache'];
    unfold raise, ret; cbn; congruence.
Qed.

(** A token whose [exp] is not in the future does not decode, whatever
    else is right or wrong with it. *)
Lemma jwt_decode_expired (now : datetime) (token secret_key alg : string)
    (payload : dict pyval) (v : pyval) (exp : Z) :
  jws_load token = Some (alg, payload) ->
  dict_get "exp" payload = Some v ->
  int v = ret exp ->
  exp * 1000000 <= now ->
  exists e, jwt_decode now token secret_key = inl e.
Proof.
  intros Hload Hexp Hint Hpast. unfold jwt_decode. rewrite Hload.
  destruct (negb (String.eqb alg "HS256")); [eexists; reflexivity|].
  destruct (negb (hs256_verify token secret_key)); [eexists; reflexivity|].
  destruct (validate_iat now payload) as [e|[]]; [eexists; reflexivity|].
  destruct (validate_nbf now payload) as [e|[]]; [eexists; reflexivity|].
  unfold validate_exp. rewrite Hexp, Hint. unfold ret. cbn [bind].
  destruct (Z.leb_spec (exp * 1000000) now); [|lia].
  eexists; reflexivity.
Qed.

(** C1 (amended). For every authorization header that does not begin
    with ["Bearer "], the [try] block raises [ValueError("Invalid token
    format")] before the secret is fetched, and the handler fails with
    [Exception('Unauthorized')], the same outcome it has for a bad
    signature or an expired token. *)
Theorem handler_malformed_header :
  forall (env : environment) (cache : option string) (ev : event),
    prefix "Bearer " (header ev) = false ->
    handler_try env cache ev = (raise (ValueError "Invalid token format"), cache) /\
    handler env cache ev = (raise (PyException "Unauthorized"), cache).
Proof.
  intros env cache ev Hprefix.
  assert (Htry : handler_try env cache ev =
                 (raise (ValueError "Invalid token format"), cache)).
  { unfold handler_try. now rewrite Hprefix. }
  split; [exact Htry|].
  rewrite handler_of_try, Htry. reflexivity.
Qed.

(** C8. A token whose [exp] claim lies strictly in the past is rejected
    with [Exception('Unauthorized')]; and every failure of the handler,
    whatever its cause, is that same exception. *)
Theorem handler_expired_token :
  forall (env : environment) (cache : option string) (ev : event)
         (token alg : string) (payload : dict pyval) (v : pyval) (exp : Z),
    authorizationToken ev = Some ("Bearer " ++ token) ->
    jws_load token = Some (alg, payload) ->
    dict_get "exp" payload = Some v ->
    int v = ret exp ->
    exp * 1000000 < now env ->
    fst (handler env cache ev) = raise (PyException "Unauthorized") /\
    (forall (env' : environment) (cache' : option string) (ev' : event) (e : pyexn),
       fst (handler env' cache' ev') = inl e -> e = PyException "Unauthorized").
Proof.
  intros env cache ev token alg payload v exp Hev Hload Hexp Hint Hpast.
  split; [|intros; eapply handler_error_unauthorized; eassumption].
  rewrite handler_of_try. unfold handler_try.
  unfold header. rewrite Hev, prefix_bearer, strip_bearer. cbn [negb].
  destruct (get_jwt_secret env cache) as [[e|secret_key] cache']; [reflexivity|].
  destruct (jwt_decode_expired (now env) token secret_key alg payload v exp)
    as [e He]; try assumption; [lia|].
  unfold ret. cbn [bind]. rewrite He. reflexivity.
Qed.

(** A token decodes when each step of [jwt.decode] lets it through. *)
Lemma jwt_decode_passes (now : datetime) (token secret_key : string)
    (payload : dict pyval) :
  jws_load token = Some ("HS256", payload) ->
  hs256_verify token secret_key = true ->
  validate_iat now payload = ret tt ->
  validate_nbf now payload = ret tt ->
  validate_exp now payload = ret tt ->
  validate_aud payload = ret tt ->
  validate_sub payload = ret tt ->
  validate_jti payload = ret tt ->
  jwt_decode now token secret_key = ret payload.
Proof.
  intros Hload Hsig Hiat Hnbf Hexp Haud Hsub Hjti. unfold jwt_decode.
  rewrite Hload, Hsig, Hiat, Hnbf, Hexp, Haud, Hsub, Hjti. reflexivity.
Qed.

(** C9 (amended). Take a token whose signature verifies under the
    secret, whose time claims pass, whose [aud] and [jti] claims, if it
    has them, pass the decoder's checks, and which has no ["sub"]
    claim.  On an event that carries [methodArn] it is accepted: the
    policy allows the call on that method and its principal is
    ["unknown"]; when the payload has at least one claim the context
    has the empty string for [userId] and for each of [email] and
    [scope] the payload lacks, and when the payload has no claim at all
    the policy has no context.  On an event without [methodArn] the
    request is refused with [Exception('Unauthorized')]. *)
Theorem handler_token_without_sub :
  forall (env : environment) (cache : option string) (ev : event)
         (token secret_key : string) (payload : dict pyval),
    authorizationToken ev = Some ("Bearer " ++ token) ->
    fst (get_jwt_secret env cache) = ret secret_key ->
    jws_load token = Some ("HS256", payload) ->
    hs256_verify token secret_key = true ->
    validate_iat (now env) payload = ret tt ->
    validate_nbf (now env) payload = ret tt ->
    validate_exp (now env) payload = ret tt ->
    validate_aud payload = ret tt ->
    validate_jti payload = ret tt ->
    dict_get "sub" payload = None ->
    match methodArn ev with
    | None => fst (handler env cache ev) = raise (PyException "Unauthorized")
    | Some arn =>
        exists p : policy,
          fst (handler env cache ev) = ret p /\
          principalId p = PStr "unknown" /\
          Statement (policyDocument p) =
            [ {| Action := "execute-api:Invoke"; Effect := "Allow"; Resource := arn |} ] /\
          (payload = [] -> context p = None) /\
          (payload <> [] ->
           exists c : policy_context,
             context p = Some c /\
             userId c = "" /\
             (dict_get "email" payload = None -> email c = "") /\
             (dict_get "scope" payload = None -> scope c = ""))
    end.
Proof.
  intros env cache ev token secret_key payload
         Hev Hsecret Hload Hsig Hiat Hnbf Hexp Haud Hjti Hsub.
  assert (Hdecode : jwt_decode (now env) token secret_key = ret payload).
  { apply jwt_decode_passes; try assumption.
    unfold validate_sub. now rewrite Hsub. }
  assert (Htry : fst (handler_try env cache ev) =
                 (resource <- match methodArn ev with
                              | Some arn => ret arn
                              | None => raise (KeyError "methodArn")
                              end ;;
                  ret (generate_policy (PStr "unknown") "Allow" resource (Some payload)))).
  { unfold handler_try, header.
    rewrite Hev, prefix_bearer, strip_bearer. cbn [negb].
    destruct (get_jwt_secret env cache) as [r cache']. cbn [fst] in Hsecret.
    rewrite Hsecret. unfold ret at 1. cbn [bind fst]. rewrite Hdecode.
    unfold ret at 1. cbn [bind]. unfold dict_get_default. now rewrite Hsub. }
  rewrite handler_of_try.
  destruct (handler_try env cache ev) as [r cache'] eqn:Hh. cbn [fst] in Htry.
  subst r.
  destruct (methodArn ev) as [arn|]; cbn [bind raise ret fst]; [|reflexivity].
  eexists. split; [reflexivity|]. split; [reflexivity|]. split; [reflexivity|].
  split.
  - now intros ->.
  - intros Hne. destruct payload as [|entry payload]; [congruence|].
    eexists. split; [reflexivity|]. cbn [userId email scope].
    unfold dict_get_default. rewrite Hsub.
    split; [reflexivity|]. split; intros ->; reflexivity.
Qed.

End Handler.

(** *** The claims on the example tokens *)

Import Examples.

Lemma handler_malformed_header_witness :
  @handler demo_builtins demo_jwt demo_authorizer_env None
           (demo_event "Basic dXNlcjpwYXNz") =
  (raise (PyException "Unauthorized"), None).
Proof.
  apply (@handler_malformed_header demo_builtins demo_jwt).
  reflexivity.
Defined.

(** C1, as stated, fails: the header [Basic dXNlcjpwYXNz] has no
    ["Bearer "] prefix, and the handler fails on it with
    [Exception('Unauthorized')], which is exactly its outcome for the
    expired token; no other error is there to tell the two apart. *)
Lemma malformed_header_not_distinct :
  fst (@handler demo_builtins demo_jwt demo_authorizer_env None
                (demo_event "Basic dXNlcjpwYXNz")) =
    inl (PyException "Unauthorized") /\
  fst (@handler demo_builtins demo_jwt demo_authorizer_env None
                (demo_event "Basic dXNlcjpwYXNz")) =
  fst (@handler demo_builtins demo_jwt demo_authorizer_env None
                (demo_event "Bearer expired.token")).
Proof.
  split; reflexivity.
Qed.

Lemma handler_expired_token_witness :
  fst (@handler demo_builtins demo_jwt demo_authorizer_env None
                (demo_event "Bearer expired.token")) =
  raise (PyException "Unauthorized").
Proof.
  apply (@handler_expired_token demo_builtins demo_jwt demo_authorizer_env None
           (demo_event "Bearer expired.token") "expired.token" "HS256"
           [("sub", PStr "u1"); ("iat", PInt 900); ("exp", PInt 1000)]
           (PInt 1000) 1000);
    reflexivity.
Defined.

Lemma handler_token_without_sub_witness :
  exists p : policy,
    fst (@handler demo_builtins demo_jwt demo_authorizer_env None
                  (demo_event "Bearer nosub.token")) = ret p /\
    principalId p = PStr "unknown" /\
    Statement (policyDocument p) =
      [ {| Action := "execute-api:Invoke"; Effect := "Allow"; Resource := demo_arn |} ] /\
    exists c : policy_context,
      context p = Some c /\ userId c = "" /\ email c = "" /\ scope c = "".
Proof.
  destruct (@handler_token_without_sub demo_builtins demo_jwt demo_authorizer_env None
              (demo_event "Bearer nosub.token") "nosub.token" "s3cret"
              [("iat", PInt 1700000000); ("exp", PInt 1900000000)]
              eq_refl eq_refl eq_refl eq_refl eq_refl eq_refl eq_refl eq_refl
              eq_refl eq_refl)
    as (p & H1 & H2 & H3 & _ & H5).
  destruct H5 as (c & Hc & Hu & He & Hs); [discriminate|].
  exists p. split; [exact H1|]. split; [exact H2|]. split; [exact H3|].
  exists c. split; [exact Hc|]. split; [exact Hu|].
  split; [now apply He | now apply Hs].
Defined.

(** C9, as stated, fails, in three ways.  The token [empty.token] is
    signed and has no claims at all: the handler accepts it with
    principal ["unknown"], and the policy carries no context, rather
    than one of empty strings.  The tokens [jti.token] and [aud.token]
    are signed, have no time claim to fail and no ["sub"]: the decoder
    refuses the first for its identifier, a number, and the second for
    its audience, and the handler fails.  And the token [nosub.token],
    which is accepted on an event with a [methodArn], is refused on an
    event without one. *)
Lemma token_without_sub_not_always_context :
  (exists p : policy,
     fst (@handler demo_builtins demo_jwt demo_authorizer_env None
                   (demo_event "Bearer empty.token")) = ret p /\
     principalId p = PStr "unknown" /\
     context p = None) /\
  fst (@handler demo_builtins MoreExamples.demo_jwt_registered demo_authorizer_env None
                (demo_event "Bearer jti.token")) = raise (PyException "Unauthorized") /\
  fst (@handler demo_builtins MoreExamples.demo_jwt_registered demo_authorizer_env None
                (demo_event "Bearer aud.token")) = raise (PyException "Unauthorized") /\
  fst (@handler demo_builtins demo_jwt demo_authorizer_env None
                {| authorizationToken := Some "Bearer nosub.token";
                   methodArn := None |}) = raise (PyException "Unauthorized").
Proof.
  split; [|repeat split].
  eexists. split; [reflexivity|]. split; reflexivity.
Qed.

End AuthorizerFacts.

(** ** Facts about the ingest handler *)

Module IngestFacts.
Import Ingest Reference.

Local Open Scope list_scope.

(** *** The stored items *)

Lemma put_item_fresh (table : list item) (it : item) :
  (forall old, In old table -> id old <> id it) ->
  put_item table it = table ++ [it].
Proof.
  induction table as [|old table IH]; intros Hfresh; [reflexivity|].
  cbn [put_item].
  destruct (String.eqb_spec (id old) (id it)) as [Heq|Hne].
  - exfalso. apply (Hfresh old); [now left | exact Heq].
  - cbn [andb app]. f_equal. apply IH. intros o Ho. apply Hfresh. now right.
Qed.

Lemma put_item_In (table : list item) (it x : item) :
  In x (put_item table it) -> In x table \/ x = it.
Proof.
  induction table as [|old table IH]; cbn [put_item].
  - intros [<-|[]]. now right.
  - destruct (String.eqb (id old) (id it) && (timestamp old =? timestamp it)).
    + intros [<-|H]; [now right | left; now right].
    + intros [<-|H]; [left; now left|].
      destruct (IH H) as [H'|H']; [left; now right | now right].
Qed.

Lemma put_item_keeps (table : list item) (it x : item) :
  In x table -> id x <> id it -> In x (put_item table it).
Proof.
  induction table as [|old table IH]; cbn [put_item]; [contradiction|].
  intros [->|H] Hne.
  - destruct (String.eqb_spec (id x) (id it)) as [Heq|_]; [contradiction|].
    cbn [andb]. now left.
  - destruct (String.eqb (id old) (id it) && (timestamp old =? timestamp it));
      right; [exact H | now apply IH].
Qed.

Section Handler.

Context {json : Json}.

Lemma missing_required_fields_dict (d : dict pyval) :
  missing_required_fields (PDict d) =
  ret (negb (dict_contains "userId" d) || negb (dict_contains "data" d)).
Proof.
  unfold missing_required_fields. cbn.
  now destruct (dict_contains "userId" d).
Qed.

(** The handler on a body that parses to an object. *)
Lemma handler_try_object (env : environment) (table : list item) (ev : event)
    (s : string) (d : dict pyval) :
  body ev = Some (PStr s) \/ (body ev = None /\ s = "{}") ->
  json_loads s = Some (PDict d) ->
  handler_try env table ev =
  if negb (dict_contains "userId" d) || negb (dict_contains "data" d)
  then (ret missing_field_response, table)
  else
    match put_item_fault env with
    | Some (ClientError op) =>
        (ret (create_response 500 [("error", PStr "Database error");
                                   ("details", PStr op)]),
         table)
    | Some e => (raise e, table)
    | None => (ret (acknowledgment (item_of env ev d)), put_item table (item_of env ev d))
    end.
Proof.
  intros Hbody Hloads. unfold handler_try.
  assert (Hl : loads (match body ev with Some v => v | None => PStr "{}" end)
               = ret (PDict d)).
  { destruct Hbody as [-> | [-> ->]]; cbn; now rewrite Hloads. }
  rewrite Hl. unfold ret at 1. cbv iota beta.
  rewrite missing_required_fields_dict. unfold ret at 1.
  destruct (negb (dict_contains "userId" d) || negb (dict_contains "data" d));
    [reflexivity|].
  cbn [get bind ret].
  destruct (put_item_fault env) as [[]|]; reflexivity.
Qed.

(** C5. A body that parses to an object without the key ["userId"] or
    without the key ["data"] is answered with status 400 and the
    missing-fields error, and the table is left as it was. *)
Theorem handler_missing_field :
  forall (env : environment) (table : list item) (ev : event)
         (s : string) (d : dict pyval),
    body ev = Some (PStr s) ->
    json_loads s = Some (PDict d) ->
    dict_contains "userId" d = false \/ dict_contains "data" d = false ->
    handler env table ev = (missing_field_response, table) /\
    statusCode (fst (handler env table ev)) = 400.
Proof.
  intros env table ev s d Hbody Hloads Hmissing.
  assert (H : handler env table ev = (missing_field_response, table)).
  { unfold handler. rewrite (handler_try_object env table ev s d) by auto.
    destruct Hmissing as [-> | ->]; cbn [negb orb]; rewrite ?orb_true_r; reflexivity. }
  now rewrite H.
Qed.

(** C10. An event without a [body] key is handled as the body ["{}"]:
    it is answered with status 400 and the missing-fields error, not
    with the invalid-JSON error, and the table is left as it was. *)
Theorem handler_without_body :
  forall (env : environment) (table : list item) (ev : event),
    body ev = None ->
    handler env table ev = (missing_field_response, table) /\
    statusCode (fst (handler env table ev)) = 400 /\
    fst (handler env table ev) <> invalid_payload_response.
Proof.
  intros env table ev Hbody.
  assert (H : handler env table ev = (missing_field_response, table)).
  { unfold handler.
    rewrite (handler_try_object env table ev "{}" []);
      [reflexivity | now right | apply json_loads_empty_object]. }
  rewrite H. repeat split. discriminate.
Qed.

Lemma handler_try_outcome (env : environment) (table : list item) (ev : event) :
  (exists e, handler_try env table ev = (raise e, table)) \/
  (exists status b,
     (status = 400 \/ status = 500) /\
     handler_try env table ev = (ret (create_response status b), table)) \/
  (exists d, handler_try env table ev =
             (ret (acknowledgment (item_of env ev d)), put_item table (item_of env ev d))).
Proof.
  unfold handler_try.
  destruct (loads _) as [e|v].
  - destruct e; try (left; eexists; reflexivity).
    right. left. exists 400, [("error", PStr "Invalid JSON format")]. auto.
  - destruct (missing_required_fields v) as [e|[]].
    + left. eexists. reflexivity.
    + right. left. exists 400, [("error", PStr "Missing required fields: userId, data")].
      auto.
    + destruct v as [| b | n | s' | l | d]; cbn [get bind raise ret];
        try (left; eexists; reflexivity).
      destruct (put_item_fault env) as [[]|]; try (left; eexists; reflexivity).
      * right. left. eexists 500, _. split; [now right | reflexivity].
      * right. right. exists d. reflexivity.
Qed.

(** *** A process that serves one request after the other *)

Lemma handler_table (env : environment) (table : list item) (ev : event) :
  snd (handler env table ev) = table \/
  exists d, snd (handler env table ev) = put_item table (item_of env ev d).
Proof.
  unfold handler.
  destruct (handler_try_outcome env table ev)
    as [[e ->] | [(status & b & _ & ->) | [d ->]]]; cbn [snd raise ret]; eauto.
Qed.

Lemma serve_cons (table : list item) (env : environment) (ev : event)
    (rest : list (environment * event)) :
  snd (serve table ((env, ev) :: rest)) = snd (serve (snd (handler env table ev)) rest).
Proof.
  cbn [serve]. destruct (handler env table ev) as [answer table']. cbn [snd].
  now destruct (serve table' rest).
Qed.

Lemma serve_app (table : list item) (calls calls' : list (environment * event)) :
  snd (serve table (calls ++ calls')) = snd (serve (snd (serve table calls)) calls').
Proof.
  revert table. induction calls as [|[env ev] calls IH]; intros table; [reflexivity|].
  cbn [app]. now rewrite !serve_cons, IH.
Qed.

(** Every stored item was there from the start or carries an
    identifier drawn since. *)
Lemma serve_ids (calls : list (environment * event)) (table : list item) (x : item) :
  In x (snd (serve table calls)) -> In x table \/ In (id x) (drawn calls).
Proof.
  revert table. induction calls as [|[env ev] calls IH]; intros table; [now left|].
  rewrite serve_cons. intros H. apply IH in H as [H|H]; [|right; now right].
  destruct (handler_table env table ev) as [Ht|[d Ht]]; rewrite Ht in H; [now left|].
  apply put_item_In in H as [H| ->]; [now left|].
  right. now left.
Qed.

(** An item stays as long as its identifier is not drawn again. *)
Lemma serve_keeps (calls : list (environment * event)) (table : list item) (x : item) :
  In x table -> ~ In (id x) (drawn calls) -> In x (snd (serve table calls)).
Proof.
  revert table. induction calls as [|[env ev] calls IH]; intros table Hx Hnot;
    [exact Hx|].
  rewrite serve_cons. apply IH.
  - destruct (handler_table env table ev) as [Ht|[d Ht]]; rewrite Ht; [exact Hx|].
    apply put_item_keeps; [exact Hx|].
    intros Heq. apply Hnot. left. cbn. now rewrite Heq.
  - intros H. apply Hnot. now right.
Qed.

(** C7 (amended). For a body that parses to an object with the keys
    ["userId"] and ["data"], when [put_item] succeeds: the handler
    synthesizes an identifier, the value of [uuid4], and a timestamp,
    the clock's second; it writes one item, whose [userId] is the one
    of the request and whose [authenticatedUser] and [userEmail] are
    those of the authorizer; and it answers with status 200 and that
    identifier and timestamp.  The identifier is fresh and unique: in
    any sequence of invocations, [uuid4] returning a new value at every
    call, no item stored before has the identifier, the table grows by exactly the new item, and
    whatever is served afterwards the item is still stored and is the
    only one with its identifier. *)
Theorem handler_stores_and_acknowledges :
  forall (env : environment) (table : list item) (ev : event)
         (s : string) (d : dict pyval),
    body ev = Some (PStr s) ->
    json_loads s = Some (PDict d) ->
    dict_contains "userId" d = true ->
    dict_contains "data" d = true ->
    put_item_fault env = None ->
    let it := item_of env ev d in
    handler env table ev = (acknowledgment it, put_item table it) /\
    id it = uuid4 env /\
    timestamp it = int_timestamp (now_timestamp env) /\
    dict_get "userId" d = Some (userId it) /\
    authenticatedUser it = user_id_from_token ev /\
    userEmail it = user_email ev /\
    ((forall old, In old table -> id old <> uuid4 env) ->
     snd (handler env table ev) = table ++ [it]) /\
    (forall (earlier later : list (environment * event)) (table0 : list item),
       let calls := earlier ++ (env, ev) :: later in
       uuid4_never_repeats table0 calls ->
       table = snd (serve table0 earlier) ->
       (forall old, In old table -> id old <> id it) /\
       snd (handler env table ev) = table ++ [it] /\
       In it (snd (serve table0 calls)) /\
       (forall other, In other (snd (serve table0 calls)) -> id other = id it ->
                      other = it)).
Proof.
  intros env table ev s d Hbody Hloads Huser Hdata Hput it.
  assert (H : handler env table ev = (acknowledgment it, put_item table it)).
  { unfold handler. rewrite (handler_try_object env table ev s d) by auto.
    now rewrite Huser, Hdata, Hput. }
  assert (Hid : id it = uuid4 env) by reflexivity.
  rewrite H. cbn [snd].
  split; [reflexivity|]. split; [reflexivity|]. split; [reflexivity|].
  split; [|split; [reflexivity|split; [reflexivity|split]]].
  - unfold it, item_of, dict_get_default, dict_contains in *. cbn [userId].
    now destruct (dict_get "userId" d).
  - intros Hfresh. apply put_item_fresh. intros old Ho. rewrite Hid. now apply Hfresh.
  - intros earlier later table0 [Hnodup Hstart] Htable.
    set (calls := earlier ++ (env, ev) :: later) in *.
    assert (Hdrawn : drawn calls = drawn earlier ++ uuid4 env :: drawn later).
    { unfold calls, drawn. now rewrite map_app. }
    rewrite Hdrawn in Hnodup.
    pose proof (NoDup_remove_2 _ _ _ Hnodup) as Hnew.
    assert (Hfresh : forall old, In old table -> id old <> id it).
    { intros old Ho Heq. rewrite Htable in Ho.
      apply serve_ids in Ho as [Ho|Ho].
      - apply (Hstart old Ho). rewrite Hdrawn, Heq, Hid.
        apply in_or_app. right. now left.
      - apply Hnew. apply in_or_app. left. now rewrite <- Hid, <- Heq. }
    assert (Hgrow : put_item table it = table ++ [it]) by now apply put_item_fresh.
    assert (Hfinal : snd (serve table0 calls) = snd (serve (table ++ [it]) later)).
    { unfold calls. rewrite serve_app, serve_cons, <- Htable, H. cbn [snd].
      now rewrite Hgrow. }
    assert (Hlater : ~ In (id it) (drawn later)).
    { intros Hin. apply Hnew. apply in_or_app. right. now rewrite <- Hid. }
    split; [exact Hfresh|]. split; [exact Hgrow|]. rewrite Hfinal. split.
    + apply serve_keeps; [|exact Hlater]. apply in_or_app. right. now left.
    + intros other Ho Heq. apply serve_ids in Ho as [Ho|Ho].
      * apply in_app_or in Ho as [Ho|[<-|[]]]; [|reflexivity].
        exfalso. now apply (Hfresh other).
      * exfalso. apply Hlater. now rewrite <- Heq.
Qed.

End Handler.

(** *** The claims on the example requests *)

Import Examples.

Lemma handler_missing_field_witness :
  @handler demo_json (demo_ingest_env None) [] (demo_ingest_event (Some (PStr "{userId: u1}")))
  = (missing_field_response, []).
Proof.
  apply (@handler_missing_field demo_json (demo_ingest_env None) []
           (demo_ingest_event (Some (PStr "{userId: u1}")))
           "{userId: u1}" [("userId", PStr "u1")]);
    [reflexivity | reflexivity | right; reflexivity].
Defined.

Lemma handler_without_body_witness :
  @handler demo_json (demo_ingest_env None) [] (demo_ingest_event None)
  = (missing_field_response, []).
Proof.
  apply (@handler_without_body demo_json (demo_ingest_env None) []
           (demo_ingest_event None)).
  reflexivity.
Defined.

Lemma handler_stores_and_acknowledges_witness :
  let ev := demo_ingest_event (Some (PStr demo_body)) in
  let it := item_of (demo_ingest_env None) ev demo_parsed in
  let calls := [(demo_ingest_env None, ev); (MoreExamples.demo_retry_env, ev)] in
  @handler demo_json (demo_ingest_env None) [] ev = (acknowledgment it, [it]) /\
  userId it = PStr "u1" /\
  authenticatedUser it = PStr "svc-7" /\
  In it (snd (@serve demo_json [] calls)) /\
  (forall other, In other (snd (@serve demo_json [] calls)) -> id other = id it ->
                 other = it).
Proof.
  intros ev it calls.
  destruct (@handler_stores_and_acknowledges demo_json (demo_ingest_env None) []
              ev demo_body demo_parsed eq_refl eq_refl eq_refl eq_refl eq_refl)
    as (H & _ & _ & _ & _ & _ & _ & Hrun).
  destruct (Hrun [] [(MoreExamples.demo_retry_env, ev)] [])
    as (_ & _ & Hin & Hunique).
  - split; [repeat constructor; cbn; intuition discriminate | intros old []].
  - reflexivity.
  - split; [exact H|]. split; [reflexivity|]. split; [reflexivity|].
    split; [exact Hin | exact Hunique].
Defined.

(** C7, as stated, fails: the example body is valid, with ["userId"]
    and ["data"], but when [put_item] raises [ClientError] the handler
    answers with status 500 and no item is written. *)
Lemma valid_request_store_failure :
  let env := demo_ingest_env (Some (ClientError "PutItem")) in
  let ev := demo_ingest_event (Some (PStr demo_body)) in
  @json_loads demo_json demo_body = Some (PDict demo_parsed) /\
  dict_contains "userId" demo_parsed = true /\
  dict_contains "data" demo_parsed = true /\
  statusCode (fst (@handler demo_json env [] ev)) = 500 /\
  snd (@handler demo_json env [] ev) = [].
Proof.
  repeat split.
Qed.

(** The default body stands in for an absent key only: an event whose
    [body] key holds [None] reaches [json.loads] as it is, and the
    [TypeError] leaves the handler through the outer [except]. *)
Example handler_null_body :
  @handler demo_json (demo_ingest_env None) [] (demo_ingest_event (Some PNone)) =
  (create_response 500 [("error", PStr "Internal server error")], []).
Proof. reflexivity. Qed.

(** A repeated request is stored again: two runs on the same body, with
    two draws of [uuid4], leave two items that differ in their [id]
    only. *)
Example handler_retry_duplicates :
  let ev := demo_ingest_event (Some (PStr demo_body)) in
  let env1 := demo_ingest_env None in
  let env2 :=
    {| uuid4 := "7f3f9a52-0c1d-4b7e-8a6f-2d9c4e5b1a00";
       now_timestamp := now_timestamp env1;
       now_createdAt := now_createdAt env1;
       put_item_fault := None |} in
  snd (@handler demo_json env2 (snd (@handler demo_json env1 [] ev)) ev) =
  [item_of env1 ev demo_parsed; item_of env2 ev demo_parsed].
Proof. reflexivity. Qed.

End IngestFacts.

(** ** More facts about the weekly summary *)

Module WeeklySummaryMore.
Import WeeklySummary WeeklySummaryFacts Reference.

Local Open Scope list_scope.

(** *** Counting *)

Lemma dict_sum_increment (k : string) (d : stats) :
  dict_sum (dict_set k (dict_get_default k 0 d + 1) d) = dict_sum d + 1.
Proof.
  unfold dict_get_default, dict_sum.
  induction d as [|[k' v'] d IH]; cbn [dict_set dict_get fold_right snd].
  - lia.
  - destruct (String.eqb k' k); cbn [fold_right snd]; lia.
Qed.

Lemma fold_count_event_sum (items : list item) (event_stats : stats) :
  dict_sum (fold_left count_event items event_stats) =
  dict_sum event_stats + Z.of_nat (List.length items).
Proof.
  revert event_stats.
  induction items as [|it items IH]; intros; cbn [fold_left List.length]; [lia|].
  rewrite IH. unfold count_event. rewrite dict_sum_increment. lia.
Qed.

Lemma fold_count_user_sum (items : list item) (user_stats : stats) :
  dict_sum (fold_left count_user items user_stats) =
  dict_sum user_stats + Z.of_nat (List.length (flat_map counted_subject items)).
Proof.
  revert user_stats.
  induction items as [|it items IH]; intros; cbn [fold_left flat_map]; [cbn; lia|].
  rewrite IH, length_app. unfold count_user, counted_subject.
  destruct (userId it) as [u|]; [|cbn; lia].
  destruct (negb (String.eqb u "")); [|cbn; lia].
  rewrite dict_sum_increment. cbn [List.length]. lia.
Qed.

Lemma flat_map_counted_length (items : list item) :
  (List.length (flat_map counted_subject items) <= List.length items)%nat.
Proof.
  induction items as [|it items IH]; cbn [flat_map List.length]; [lia|].
  rewrite length_app. unfold counted_subject at 1.
  destruct (userId it) as [u|]; [destruct (negb (String.eqb u ""))|]; cbn; lia.
Qed.

Lemma count_user_get (k : string) (user_stats : stats) (it : item) :
  dict_get_default k 0 (count_user user_stats it) =
  dict_get_default k 0 user_stats + (if counted_under k it then 1 else 0).
Proof.
  unfold count_user, counted_under, counted_subject.
  destruct (userId it) as [u|]; [|cbn; lia].
  destruct (negb (String.eqb u "")); [|cbn; lia].
  cbn [existsb]. rewrite orb_false_r. unfold dict_get_default.
  destruct (String.eqb_spec k u) as [->|Hne].
  - now rewrite dict_get_set_same.
  - rewrite dict_get_set_other by congruence. lia.
Qed.

Lemma fold_count_user_get (k : string) (items : list item) (user_stats : stats) :
  dict_get_default k 0 (fold_left count_user items user_stats) =
  dict_get_default k 0 user_stats
  + Z.of_nat (List.length (filter (counted_under k) items)).
Proof.
  revert user_stats.
  induction items as [|it items IH]; intros; cbn [fold_left filter]; [cbn; lia|].
  rewrite IH, count_user_get.
  destruct (counted_under k it); cbn [List.length]; lia.
Qed.

Lemma first_seen_NoDup (l : list string) : NoDup (first_seen l).
Proof.
  unfold first_seen. apply NoDup_rev, NoDup_nodup.
Qed.

Lemma first_seen_length (l : list string) :
  (List.length (first_seen l) <= List.length l)%nat.
Proof.
  apply NoDup_incl_length; [apply first_seen_NoDup|].
  intros x Hx. now apply first_seen_In.
Qed.

(** What [scan_table] returns when it returns. *)
Lemma scan_table_inr (table : dynamodb_table) (start_ts end_ts total : Z)
    (user_stats event_stats : stats) :
  scan_table table start_ts end_ts = inr (total, user_stats, event_stats) ->
  scan_fails table = false /\
  total = Z.of_nat (List.length (returned table start_ts end_ts)) /\
  user_stats = fold_left count_user (returned table start_ts end_ts) [] /\
  event_stats = fold_left count_event (returned table start_ts end_ts) [].
Proof.
  rewrite scan_table_returned.
  destruct (scan_fails table); [discriminate|].
  cbv zeta. unfold ret. intros H. injection H as <- <- <-. auto.
Qed.

(** X1. However the service splits the table into pages, a scan in which
    no request fails returns what one request over all the items
    returns. *)
Theorem scan_table_pagination :
  forall (table : dynamodb_table) (start_ts end_ts : Z),
    scan_fails table = false ->
    scan_table table start_ts end_ts = scan_table (one_page table) start_ts end_ts /\
    exists user_stats event_stats,
      scan_table table start_ts end_ts =
      inr (Z.of_nat (List.length
                       (filter (filter_expression start_ts end_ts)
                               (List.concat (pages table)))),
           user_stats, event_stats).
Proof.
  intros table start_ts end_ts Hok.
  rewrite !scan_table_returned, Hok.
  unfold scan_fails, one_page, returned. cbn [pages scan_fault List.length Nat.max seq existsb List.concat].
  rewrite app_nil_r. split; [reflexivity|].
  eexists _, _. reflexivity.
Qed.

(** X2. The scan fails exactly when one of the requests it makes fails: one
    request per page, and one for a table without pages.  A request the
    scan never makes cannot fail it. *)
Theorem scan_table_fails_iff :
  forall (table : dynamodb_table) (start_ts end_ts : Z),
    (exists k : nat,
       (k < Nat.max 1 (List.length (pages table)))%nat /\ scan_fault table k = true)
    <-> scan_table table start_ts end_ts = raise (ClientError "Scan").
Proof.
  intros table start_ts end_ts. rewrite scan_table_returned.
  unfold scan_fails.
  destruct (existsb (scan_fault table) (seq 0 (Nat.max 1 (List.length (pages table)))))
    eqn:E.
  - split; [reflexivity|]. intros _.
    apply existsb_exists in E as (k & Hk & Hf). apply in_seq in Hk.
    exists k. split; [lia | exact Hf].
  - split; [|discriminate].
    intros (k & Hk & Hf). exfalso.
    assert (existsb (scan_fault table) (seq 0 (Nat.max 1 (List.length (pages table)))) = true).
    { apply existsb_exists. exists k. split; [apply in_seq; lia | exact Hf]. }
    congruence.
Qed.

(** X3. The counters are exact: the total is the number of items the scan
    returned, the count under an event type is the number of returned
    items with that label, and the count under a subject is the number
    of returned items with that non-empty [userId]; a key that never
    occurred reads 0. *)
Theorem scan_table_counts_exact :
  forall (table : dynamodb_table) (start_ts end_ts total : Z)
         (user_stats event_stats : stats),
    scan_table table start_ts end_ts = inr (total, user_stats, event_stats) ->
    let items := returned table start_ts end_ts in
    total = Z.of_nat (List.length items) /\
    (forall u : string,
       dict_get_default u 0 user_stats =
       Z.of_nat (List.length (filter (counted_under u) items))) /\
    (forall k : string,
       dict_get_default k 0 event_stats =
       Z.of_nat (List.length (filter (labelled k) items))).
Proof.
  intros table start_ts end_ts total user_stats event_stats H items.
  apply scan_table_inr in H as (_ & -> & -> & ->).
  split; [reflexivity|]. split; intros k.
  - now rewrite fold_count_user_get.
  - now rewrite fold_count_event_get.
Qed.

(** X4. The counters add up: the counts per event type sum to the total,
    the counts per subject sum to at most the total, and there are no
    more keys in either counter than items in the total. *)
Theorem scan_table_counts_add_up :
  forall (table : dynamodb_table) (start_ts end_ts total : Z)
         (user_stats event_stats : stats),
    scan_table table start_ts end_ts = inr (total, user_stats, event_stats) ->
    dict_sum event_stats = total /\
    0 <= dict_sum user_stats <= total /\
    Z.of_nat (List.length user_stats) <= total /\
    Z.of_nat (List.length event_stats) <= total.
Proof.
  intros table start_ts end_ts total user_stats event_stats H.
  apply scan_table_inr in H as (_ & -> & -> & ->).
  set (items := returned table start_ts end_ts).
  rewrite fold_count_event_sum, fold_count_user_sum. cbn [dict_sum fold_right].
  pose proof (flat_map_counted_length items) as Hu.
  split; [lia|]. split; [lia|]. split.
  - rewrite <- (length_map fst), count_user_keys.
    pose proof (first_seen_length (flat_map counted_subject items)). lia.
  - rewrite <- (length_map fst), count_event_keys.
    pose proof (first_seen_length (map event_label items)).
    rewrite length_map in *. lia.
Qed.

(** *** The shape of the counters *)

Lemma dict_get_NoDup {V : Type} (k : string) (v : V) (d : dict V) :
  NoDup (map fst d) -> In (k, v) d -> dict_get k d = Some v.
Proof.
  induction d as [|[k' v'] d IH]; cbn [map fst In dict_get]; [tauto|].
  intros Hnd [Heq|Hin].
  - injection Heq as -> ->. now rewrite String.eqb_refl.
  - inversion Hnd as [|? ? Hnotin Hnd']; subst.
    destruct (String.eqb_spec k' k) as [->|Hne].
    + exfalso. apply Hnotin. apply in_map_iff. now exists (k, v).
    + now apply IH.
Qed.

Lemma filter_nonempty_length {A : Type} (f : A -> bool) (l : list A) (x : A) :
  In x l -> f x = true -> (1 <= List.length (filter f l))%nat.
Proof.
  intros Hin Hf.
  assert (H : In x (filter f l)) by (apply filter_In; auto).
  destruct (filter f l); [contradiction | cbn; lia].
Qed.

Lemma counted_subject_In (u : string) (it : item) :
  In u (counted_subject it) <-> userId it = Some u /\ u <> "".
Proof.
  unfold counted_subject.
  destruct (userId it) as [u'|]; [|cbn; split; [tauto | intros [H _]; discriminate]].
  destruct (String.eqb_spec u' "") as [->|Hne]; cbn.
  - split; [tauto | intros [H Hne]; congruence].
  - split.
    + intros [->|[]]. auto.
    + intros [H _]. left. congruence.
Qed.

(** X5. The counters are well formed: no key twice, no count below 1, the
    empty subject never a key, and a key for exactly the subjects and
    the event labels that occur in the returned items. *)
Theorem scan_table_counters_wellformed :
  forall (table : dynamodb_table) (start_ts end_ts total : Z)
         (user_stats event_stats : stats),
    scan_table table start_ts end_ts = inr (total, user_stats, event_stats) ->
    let items := returned table start_ts end_ts in
    NoDup (map fst user_stats) /\
    NoDup (map fst event_stats) /\
    Forall (fun e => 1 <= snd e) user_stats /\
    Forall (fun e => 1 <= snd e) event_stats /\
    (forall u : string,
       In u (map fst user_stats) <->
       u <> "" /\ exists it, In it items /\ userId it = Some u) /\
    (forall k : string,
       In k (map fst event_stats) <-> exists it, In it items /\ event_label it = k).
Proof.
  intros table start_ts end_ts total user_stats event_stats H items.
  apply scan_table_inr in H as (_ & _ & Hus & Hes). fold items in Hus, Hes.
  assert (Hku : map fst user_stats = first_seen (flat_map counted_subject items))
    by (subst; apply count_user_keys).
  assert (Hke : map fst event_stats = first_seen (map event_label items))
    by (subst; apply count_event_keys).
  assert (Hinu : forall u, In u (map fst user_stats) <->
                           u <> "" /\ exists it, In it items /\ userId it = Some u).
  { intros u. rewrite Hku, first_seen_In, in_flat_map. split.
    - intros (it & Hit & Hc). apply counted_subject_In in Hc as [Hc Hne]. eauto.
    - intros (Hne & it & Hit & Hc). exists it. split; [exact Hit|].
      now apply counted_subject_In. }
  assert (Hine : forall k, In k (map fst event_stats) <->
                           exists it, In it items /\ event_label it = k).
  { intros k. rewrite Hke, first_seen_In, in_map_iff. split.
    - intros (it & He & Hit). eauto.
    - intros (it & Hit & He). eauto. }
  assert (Hndu : NoDup (map fst user_stats)) by (rewrite Hku; apply first_seen_NoDup).
  assert (Hnde : NoDup (map fst event_stats)) by (rewrite Hke; apply first_seen_NoDup).
  repeat split; try assumption; try (now apply Hinu); try (now apply Hine).
  - apply Forall_forall. intros [u v] Hin. cbn [snd].
    pose proof (dict_get_NoDup u v user_stats Hndu Hin) as Hget.
    assert (Hv : dict_get_default u 0 user_stats = v)
      by (unfold dict_get_default; now rewrite Hget).
    rewrite Hus, fold_count_user_get in Hv. cbn in Hv.
    assert (Hk : In u (map fst user_stats)) by (apply in_map_iff; now exists (u, v)).
    apply Hinu in Hk as (Hne & it & Hit & Hc).
    pose proof (filter_nonempty_length (counted_under u) items it Hit) as Hlen.
    unfold counted_under in Hlen.
    assert (existsb (String.eqb u) (counted_subject it) = true).
    { apply existsb_exists. exists u. split; [now apply counted_subject_In|].
      apply String.eqb_refl. }
    unfold counted_under in Hv. specialize (Hlen H). lia.
  - apply Forall_forall. intros [k v] Hin. cbn [snd].
    pose proof (dict_get_NoDup k v event_stats Hnde Hin) as Hget.
    assert (Hv : dict_get_default k 0 event_stats = v)
      by (unfold dict_get_default; now rewrite Hget).
    rewrite Hes, fold_count_event_get in Hv. cbn in Hv.
    assert (Hk : In k (map fst event_stats)) by (apply in_map_iff; now exists (k, v)).
    apply Hine in Hk as (it & Hit & He).
    pose proof (filter_nonempty_length (fun it => String.eqb (event_label it) k)
                  items it Hit) as Hlen.
    assert (Hf : String.eqb (event_label it) k = true)
      by (rewrite He; apply String.eqb_refl).
    specialize (Hlen Hf). lia.
Qed.

(** *** A run that succeeds *)

(** The report of a run over the items the scan returns. *)
Lemma handler_no_fault (utcnow : datetime) (table : dynamodb_table) (s3 : s3_state) :
  scan_fails table = false ->
  put_object_fault s3 = false ->
  exists (summary : summary) (obj : s3_object),
    handler utcnow table s3 =
    ({| statusCode := 200;
        body := Generated "Summary generated successfully"
                          (total_items summary) (report_key utcnow) summary |},
     {| bucket := dict_set (report_key utcnow) obj (bucket s3);
        put_object_calls := put_object_calls s3 ++ [report_key utcnow];
        put_object_fault := false |}) /\
    Body obj = summary /\
    let items := returned table (start_timestamp utcnow) (end_timestamp utcnow) in
    summary =
    {| generated_at := isoformat utcnow;
       period_start := isoformat (start_time utcnow);
       period_end := isoformat utcnow;
       total_items := Z.of_nat (List.length items);
       unique_users := Z.of_nat (List.length (fold_left count_user items []));
       unique_event_types := Z.of_nat (List.length (fold_left count_event items []));
       top_users := get_top_items (fold_left count_user items []) 10;
       top_event_types := get_top_items (fold_left count_event items []) 10 |}.
Proof.
  intros Hscan Hput. unfold handler, handler_try, upload_summary_to_s3, put_object.
  rewrite scan_table_returned, Hscan, Hput. cbv zeta. unfold bind, ret. cbv iota beta.
  match goal with
  | |- context [Generated _ _ _ ?s] => exists s
  end.
  eexists. split; [reflexivity|]. split; reflexivity.
Qed.

(** X6. A run in which neither the scan nor the write fails answers with
    status 200 and stores its report under the key of the end date:
    the bucket then holds the report there, every other key holds what
    it held, and one [put_object] call was made. *)
Theorem handler_writes_one_report :
  forall (utcnow : datetime) (table : dynamodb_table) (s3 : s3_state),
    scan_fails table = false ->
    put_object_fault s3 = false ->
    let run := handler utcnow table s3 in
    exists (summary : summary) (obj : s3_object),
      fst run =
      {| statusCode := 200;
         body := Generated "Summary generated successfully"
                           (total_items summary) (report_key utcnow) summary |} /\
      total_items summary =
      Z.of_nat (List.length
                  (returned table (start_timestamp utcnow) (end_timestamp utcnow))) /\
      Body obj = summary /\
      dict_get (report_key utcnow) (bucket (snd run)) = Some obj /\
      (forall k : string,
         k <> report_key utcnow ->
         dict_get k (bucket (snd run)) = dict_get k (bucket s3)) /\
      put_object_calls (snd run) = put_object_calls s3 ++ [report_key utcnow].
Proof.
  intros utcnow table s3 Hscan Hput run. subst run.
  destruct (handler_no_fault utcnow table s3 Hscan Hput) as (summary & obj & -> & Hb & Hs).
  exists summary, obj. cbn [fst snd bucket put_object_calls].
  split; [reflexivity|]. split; [now rewrite Hs|]. split; [exact Hb|]. split; [|split].
  - apply dict_get_set_same.
  - intros k Hk. apply dict_get_set_other. congruence.
  - reflexivity.
Qed.

Lemma report_key_same_day (t1 t2 : datetime) :
  t1 / 86400000000 = t2 / 86400000000 -> report_key t1 = report_key t2.
Proof.
  unfold report_key, strftime_ymd. now intros ->.
Qed.

Lemma dict_set_keys_present {V : Type} (k : string) (v v' : V) (d : dict V) :
  map fst (dict_set k v' (dict_set k v d)) = map fst (dict_set k v d).
Proof.
  rewrite dict_keys_set. unfold dict_contains. now rewrite dict_get_set_same.
Qed.

(** X7. Two runs that end on the same day (UTC) write the same key: the
    second report takes the place of the first, and the bucket has no
    more keys after the second run than after the first. *)
Theorem handler_same_day_overwrites :
  forall (t1 t2 : datetime) (table1 table2 : dynamodb_table) (s3 : s3_state),
    t1 / 86400000000 = t2 / 86400000000 ->
    scan_fails table1 = false ->
    scan_fails table2 = false ->
    put_object_fault s3 = false ->
    let first := handler t1 table1 s3 in
    let second := handler t2 table2 (snd first) in
    map fst (bucket (snd second)) = map fst (bucket (snd first)) /\
    exists obj : s3_object,
      dict_get (report_key t1) (bucket (snd second)) = Some obj /\
      generated_at (Body obj) = isoformat t2 /\
      total_items (Body obj) =
      Z.of_nat (List.length (returned table2 (start_timestamp t2) (end_timestamp t2))).
Proof.
  intros t1 t2 table1 table2 s3 Hday Hs1 Hs2 Hput first second. subst first second.
  destruct (handler_no_fault t1 table1 s3 Hs1 Hput) as (sum1 & obj1 & -> & _ & _).
  cbn [snd].
  destruct (handler_no_fault t2 table2
              {| bucket := dict_set (report_key t1) obj1 (bucket s3);
                 put_object_calls := put_object_calls s3 ++ [report_key t1];
                 put_object_fault := false |} Hs2 eq_refl)
    as (sum2 & obj2 & -> & Hb & Hsum).
  cbn [snd bucket]. rewrite <- (report_key_same_day t1 t2 Hday). split.
  - apply dict_set_keys_present.
  - exists obj2. split; [apply dict_get_set_same|]. rewrite Hb, Hsum. split; reflexivity.
Qed.

(** X8. Whenever the handler answers with a generated summary, the summary
    is consistent: the status is 200, the total in the answer is the
    total of the summary and the key is the one of the end date; there
    are no more distinct subjects or event types than items; each
    ranking has 10 entries or as many as there are keys; and the period
    is the seven days that end at the time of generation. *)
Theorem handler_summary_consistent :
  forall (utcnow : datetime) (table : dynamodb_table) (s3 : s3_state)
         (message s3_key : string) (total : Z) (s : summary),
    body (fst (handler utcnow table s3)) = Generated message total s3_key s ->
    statusCode (fst (handler utcnow table s3)) = 200 /\
    total = total_items s /\
    s3_key = report_key utcnow /\
    0 <= unique_users s <= total_items s /\
    0 <= unique_event_types s <= total_items s /\
    (total_items s = 0 <-> unique_event_types s = 0) /\
    Z.of_nat (List.length (top_users s)) = Z.min 10 (unique_users s) /\
    Z.of_nat (List.length (top_event_types s)) = Z.min 10 (unique_event_types s) /\
    generated_at s = isoformat utcnow /\
    period_end s = isoformat utcnow /\
    period_start s = isoformat (utcnow - timedelta_days 7).
Proof.
  intros utcnow table s3 message s3_key total s H.
  destruct (scan_fails table) eqn:Hscan.
  { rewrite (handler_scan_fault utcnow table s3 Hscan) in H. discriminate. }
  destruct (put_object_fault s3) eqn:Hput.
  { destruct (handler_put_fault utcnow table s3 Hscan Hput) as [key Hh].
    rewrite Hh in H. discriminate. }
  destruct (handler_no_fault utcnow table s3 Hscan Hput) as (s' & obj & Hh & _ & Hs).
  rewrite Hh in *. cbn [fst body statusCode] in *.
  injection H as _ <- <- <-.
  set (items := returned table (start_timestamp utcnow) (end_timestamp utcnow)) in *.
  cbv zeta in Hs. subst s'.
  cbn [total_items unique_users unique_event_types top_users top_event_types
       generated_at period_end period_start].
  pose proof (first_seen_length (flat_map counted_subject items)) as Hu.
  pose proof (flat_map_counted_length items) as Hu'.
  pose proof (first_seen_length (map event_label items)) as He.
  rewrite length_map in He.
  assert (Hlu : List.length (fold_left count_user items []) =
                List.length (first_seen (flat_map counted_subject items)))
    by (rewrite <- count_user_keys; now rewrite length_map).
  assert (Hle : List.length (fold_left count_event items []) =
                List.length (first_seen (map event_label items)))
    by (rewrite <- count_event_keys; now rewrite length_map).
  rewrite !get_top_items_firstn, !length_map, !length_firstn.
  rewrite !(Permutation_length (sorted_by_count_perm _)).
  repeat split; try reflexivity; try lia.
  intros H0. rewrite Hle in H0.
  destruct items as [|it items']; [reflexivity|]. exfalso.
  assert (Hin : In (event_label it) (first_seen (map event_label (it :: items')))).
  { apply first_seen_In. now left. }
  destruct (first_seen (map event_label (it :: items'))); [contradiction|].
  cbn [List.length] in H0. lia.
Qed.

(** X9. A run over a table in which no item passes the filter still succeeds:
    it answers with status 200 and a total of 0, and the report it
    writes and returns has a total of 0, no subjects and no event
    types, and two empty rankings. *)
Theorem handler_empty_window :
  forall (utcnow : datetime) (table : dynamodb_table) (s3 : s3_state),
    (forall it : item,
       In it (List.concat (pages table)) ->
       filter_expression (start_timestamp utcnow) (end_timestamp utcnow) it = false) ->
    scan_fails table = false ->
    put_object_fault s3 = false ->
    scan_table table (start_timestamp utcnow) (end_timestamp utcnow) = inr (0, [], []) /\
    exists obj : s3_object,
      fst (handler utcnow table s3) =
        {| statusCode := 200;
           body := Generated "Summary generated successfully" 0 (report_key utcnow)
                             (Body obj) |} /\
      dict_get (report_key utcnow) (bucket (snd (handler utcnow table s3))) = Some obj /\
      total_items (Body obj) = 0 /\
      unique_users (Body obj) = 0 /\
      unique_event_types (Body obj) = 0 /\
      top_users (Body obj) = [] /\
      top_event_types (Body obj) = [].
Proof.
  intros utcnow table s3 Hnone Hscan Hput.
  assert (Hret : returned table (start_timestamp utcnow) (end_timestamp utcnow) = []).
  { unfold returned.
    induction (List.concat (pages table)) as [|it l IH]; [reflexivity|].
    cbn [filter]. rewrite (Hnone it) by now left.
    apply IH. intros it' Hin. apply Hnone. now right. }
  split.
  - now rewrite scan_table_returned, Hscan, Hret.
  - destruct (handler_no_fault utcnow table s3 Hscan Hput) as (s & obj & -> & Hb & Hs).
    exists obj. cbn [fst snd bucket]. rewrite Hb, Hs, Hret.
    split; [reflexivity|]. split; [apply dict_get_set_same|]. repeat split.
Qed.

(** *** The ranking, for any limit *)

Lemma sorted_app_cross {A : Type} (R : A -> A -> Prop) (l1 l2 : list A) :
  StronglySorted R (l1 ++ l2) ->
  forall x y, In x l1 -> In y l2 -> R x y.
Proof.
  induction l1 as [|a l1 IH]; cbn [app]; intros Hs x y Hx Hy; [contradiction|].
  inversion Hs as [|? ? Hs' Ha]; subst.
  destruct Hx as [->|Hx].
  - rewrite Forall_forall in Ha. apply Ha. apply in_or_app. now right.
  - now apply IH.
Qed.

(** X10. For every limit, [get_top_items] returns [limit] entries or all of
    them if there are fewer (none for limit 0); each is an entry of the
    dictionary, no entry left out has a larger count than one that is
    returned, and a smaller limit gives a prefix of what a larger one
    gives. *)
Theorem get_top_items_limit :
  forall (stats_dict : stats) (limit : nat),
    let top := get_top_items stats_dict limit in
    List.length top = Nat.min limit (List.length stats_dict) /\
    (forall x : top_item, In x top -> In (name x, count x) stats_dict) /\
    (exists rest : list top_item,
       Permutation (top ++ rest) (map top_item_of stats_dict) /\
       forall x y : top_item, In x top -> In y rest -> count y <= count x) /\
    ((List.length stats_dict <= limit)%nat ->
     Permutation top (map top_item_of stats_dict)) /\
    (forall n : nat, (n <= limit)%nat -> get_top_items stats_dict n = firstn n top).
Proof.
  intros stats_dict limit top. subst top. rewrite get_top_items_firstn.
  pose proof (sorted_by_count_perm stats_dict) as Hperm.
  pose proof (sorted_by_count_sorted stats_dict) as Hsorted.
  split; [|split; [|split; [|split]]].
  - rewrite length_map, length_firstn. now rewrite (Permutation_length Hperm).
  - intros x Hx. apply in_map_iff in Hx as ([n c] & <- & Hin). cbn.
    apply (Permutation_in _ Hperm).
    rewrite <- (firstn_skipn limit (sorted_by_count stats_dict)).
    apply in_or_app. now left.
  - exists (map top_item_of (skipn limit (sorted_by_count stats_dict))). split.
    + rewrite <- map_app, firstn_skipn. now apply Permutation_map.
    + intros x y Hx Hy.
      apply in_map_iff in Hx as (ex & <- & Hx). apply in_map_iff in Hy as (ey & <- & Hy).
      rewrite <- (firstn_skipn limit (sorted_by_count stats_dict)) in Hsorted.
      exact (sorted_app_cross count_ge _ _ Hsorted ex ey Hx Hy).
  - intros Hlen. rewrite firstn_all2.
    + now apply Permutation_map.
    + now rewrite (Permutation_length Hperm).
  - intros n Hn. rewrite get_top_items_firstn, <- firstn_map, <- firstn_map.
    rewrite firstn_firstn. now rewrite Nat.min_l.
Qed.

(** *** The facts on the example table *)

Import Examples.

Lemma scan_table_pagination_witness :
  scan_table (demo_table [demo_click; demo_plain] no_fault) 1793181600 1793786400 =
  scan_table (one_page (demo_table [demo_click; demo_plain] no_fault))
             1793181600 1793786400.
Proof.
  apply (scan_table_pagination (demo_table [demo_click; demo_plain] no_fault)).
  reflexivity.
Defined.

Lemma scan_table_counts_exact_witness :
  let items := returned (demo_table [demo_click; demo_blank; demo_plain] no_fault)
                        1793181600 1793786400 in
  4 = Z.of_nat (List.length items) /\
  dict_get_default "u1" 0 [("u1", 2); ("u2", 1)] =
    Z.of_nat (List.length (filter (counted_under "u1") items)).
Proof.
  intros items.
  destruct (scan_table_counts_exact
              (demo_table [demo_click; demo_blank; demo_plain] no_fault)
              1793181600 1793786400 4 [("u1", 2); ("u2", 1)]
              [("click", 1); ("unknown", 2); ("view", 1)] eq_refl)
    as (H1 & H2 & _).
  split; [exact H1 | exact (H2 "u1")].
Defined.

Lemma scan_table_counts_add_up_witness :
  dict_sum [("click", 1); ("unknown", 2); ("view", 1)] = 4 /\
  0 <= dict_sum [("u1", 2); ("u2", 1)] <= 4.
Proof.
  destruct (scan_table_counts_add_up
              (demo_table [demo_click; demo_blank; demo_plain] no_fault)
              1793181600 1793786400 4 [("u1", 2); ("u2", 1)]
              [("click", 1); ("unknown", 2); ("view", 1)] eq_refl)
    as (H1 & H2 & _).
  split; assumption.
Defined.

Lemma scan_table_counters_wellformed_witness :
  NoDup (map fst [("u1", 2); ("u2", 1)]) /\
  Forall (fun e => 1 <= snd e) [("click", 1); ("unknown", 2); ("view", 1)].
Proof.
  destruct (scan_table_counters_wellformed
              (demo_table [demo_click; demo_blank; demo_plain] no_fault)
              1793181600 1793786400 4 [("u1", 2); ("u2", 1)]
              [("click", 1); ("unknown", 2); ("view", 1)] eq_refl)
    as (H1 & _ & _ & H4 & _).
  split; assumption.
Defined.

Lemma handler_writes_one_report_witness :
  let run := handler demo_now (demo_table [demo_click; demo_plain] no_fault)
                     (demo_s3 false) in
  statusCode (fst run) = 200 /\
  put_object_calls (snd run) = ["summaries/weekly-summary-2026-11-04.json"].
Proof.
  intros run.
  destruct (handler_writes_one_report demo_now
              (demo_table [demo_click; demo_plain] no_fault) (demo_s3 false)
              eq_refl eq_refl)
    as (s & obj & H1 & _ & _ & _ & _ & H6).
  fold run in H1, H6. rewrite H1, H6. split; reflexivity.
Defined.

Lemma handler_same_day_overwrites_witness :
  let first := handler demo_now (demo_table [demo_click] no_fault) (demo_s3 false) in
  let second := handler (demo_now + 3600000000)
                        (demo_table [demo_click; demo_plain] no_fault) (snd first) in
  map fst (bucket (snd second)) = map fst (bucket (snd first)).
Proof.
  intros first second.
  apply (handler_same_day_overwrites demo_now (demo_now + 3600000000)
           (demo_table [demo_click] no_fault)
           (demo_table [demo_click; demo_plain] no_fault) (demo_s3 false));
    reflexivity.
Defined.

Lemma handler_summary_consistent_witness :
  exists s : summary,
    0 <= unique_users s <= total_items s /\
    Z.of_nat (List.length (top_users s)) = Z.min 10 (unique_users s) /\
    total_items s = 3.
Proof.
  eexists.
  destruct (handler_summary_consistent demo_now
              (demo_table [demo_click; demo_plain] no_fault) (demo_s3 false)
              _ _ _ _ eq_refl)
    as (_ & _ & _ & H4 & _ & _ & H7 & _).
  split; [exact H4|]. split; [exact H7 | reflexivity].
Defined.

Lemma handler_empty_window_witness :
  let utcnow := demo_now + timedelta_days 30 in
  let table := demo_table [demo_old; demo_nobody] (fun k => Nat.eqb k 5) in
  scan_table table (start_timestamp utcnow) (end_timestamp utcnow) = inr (0, [], []) /\
  statusCode (fst (handler utcnow table (demo_s3 false))) = 200.
Proof.
  intros utcnow table.
  destruct (handler_empty_window utcnow table (demo_s3 false)) as (H1 & obj & H2 & _).
  - intros it [<-|[<-|[<-|[]]]]; reflexivity.
  - reflexivity.
  - reflexivity.
  - split; [exact H1|]. now rewrite H2.
Defined.

End WeeklySummaryMore.

(** ** More facts about the authorizer *)

Module AuthorizerMore.
Import Authorizer AuthorizerFacts Reference.

Section Handler.

Context {builtins : Builtins} {pyjwt : PyJWT}.

(** *** The secret and its cache *)

(** X11. Once [get_jwt_secret] has returned a secret, the cache holds it and
    every later call returns it again, whatever the environment and the
    parameter store hold by then. *)
Theorem get_jwt_secret_sticky :
  forall (env env' : environment) (cache cache' : option string) (secret : string),
    get_jwt_secret env cache = (ret secret, cache') ->
    cache' = Some secret /\
    get_jwt_secret env' cache' = (ret secret, cache').
Proof.
  intros env env' cache cache' secret. unfold get_jwt_secret, ret, raise.
  destruct cache as [s|].
  - intros H. injection H as <- <-. auto.
  - destruct (JWT_SECRET_PARAM env) as [name|]; [|discriminate].
    destruct (ssm_get_parameter env name) as [e|value]; [discriminate|].
    intros H. injection H as <- <-. auto.
Qed.

(** A call fails only on an empty cache, and leaves it empty: either
    the variable [JWT_SECRET_PARAM] is not set, or the parameter store
    raised.  The next call asks again. *)
Lemma get_jwt_secret_failure :
  forall (env : environment) (cache cache' : option string) (e : pyexn),
    get_jwt_secret env cache = (raise e, cache') ->
    cache = None /\ cache' = None /\
    ((JWT_SECRET_PARAM env = None /\ e = KeyError "JWT_SECRET_PARAM") \/
     exists name, JWT_SECRET_PARAM env = Some name /\
                  ssm_get_parameter env name = raise e).
Proof.
  intros env cache cache' e. unfold get_jwt_secret, ret, raise.
  destruct cache as [s|]; [discriminate|].
  destruct (JWT_SECRET_PARAM env) as [name|].
  - destruct (ssm_get_parameter env name) as [e'|value] eqn:Hssm; [|discriminate].
    intros H. injection H as <- <-. split; [reflexivity|]. split; [reflexivity|].
    right. now exists name.
  - intros H. injection H as <- <-. auto.
Qed.

Lemma handler_try_cache (env : environment) (cache : option string) (ev : event) :
  snd (handler_try env cache ev) =
  if prefix "Bearer " (header ev) then snd (get_jwt_secret env cache) else cache.
Proof.
  unfold handler_try.
  destruct (prefix "Bearer " (header ev)); cbn [negb]; [|reflexivity].
  now destruct (get_jwt_secret env cache) as [r cache'].
Qed.

Lemma handler_snd (env : environment) (cache : option string) (ev : event) :
  snd (handler env cache ev) = snd (handler_try env cache ev).
Proof.
  rewrite handler_of_try. now destruct (handler_try env cache ev) as [[e|p] c].
Qed.

(** X12. What the handler leaves in the cache does not depend on the token:
    a header with the prefix makes it fetch the secret (or keep the one
    it has), also when the token is then refused; any other header
    leaves the cache as it is. *)
Theorem handler_cache :
  forall (env : environment) (cache : option string) (ev : event),
    snd (handler env cache ev) =
    if prefix "Bearer " (header ev) then snd (get_jwt_secret env cache) else cache.
Proof.
  intros env cache ev. now rewrite handler_snd, handler_try_cache.
Qed.

(** X13. With a secret in the cache the handler no longer looks at the
    environment variable or the parameter store: two processes that
    differ in these only give the same answer, and keep the secret. *)
Theorem handler_uses_cached_secret :
  forall (env env' : environment) (secret : string) (ev : event),
    now env = now env' ->
    handler env (Some secret) ev = handler env' (Some secret) ev /\
    snd (handler env (Some secret) ev) = Some secret.
Proof.
  intros env env' secret ev Hnow. split.
  - unfold handler, handler_try, get_jwt_secret. now rewrite Hnow.
  - rewrite handler_snd, handler_try_cache.
    now destruct (prefix "Bearer " (header ev)).
Qed.

(** X14. While the secret cannot be fetched, every request is answered with
    [Exception('Unauthorized')], also one with a good token, and the
    cache stays empty. *)
Theorem handler_secret_unavailable :
  forall (env : environment) (ev : event) (e : pyexn),
    fst (get_jwt_secret env None) = raise e ->
    handler env None ev = (raise (PyException "Unauthorized"), None).
Proof.
  intros env ev e Hfetch. rewrite handler_of_try. unfold handler_try.
  destruct (prefix "Bearer " (header ev)); cbn [negb]; [|reflexivity].
  destruct (get_jwt_secret env None) as [r cache'] eqn:Hg. cbn [fst] in Hfetch.
  subst r. apply get_jwt_secret_failure in Hg as (_ & -> & _). reflexivity.
Qed.

(** *** What an accepted request went through *)

Lemma validate_exp_ok (now : datetime) (payload : dict pyval) (v : pyval) (exp : Z) :
  validate_exp now payload = ret tt ->
  dict_get "exp" payload = Some v ->
  int v = ret exp ->
  now < exp * 1000000.
Proof.
  unfold validate_exp. intros H Hget Hint. rewrite Hget, Hint in H.
  unfold ret in H. cbv iota beta in H.
  destruct (Z.leb_spec (exp * 1000000) now); [discriminate | lia].
Qed.

Lemma jwt_decode_sound (now : datetime) (token secret_key : string) (payload : dict pyval) :
  jwt_decode now token secret_key = ret payload ->
  jws_load token = Some ("HS256", payload) /\
  hs256_verify token secret_key = true /\
  validate_exp now payload = ret tt /\
  validate_sub payload = ret tt.
Proof.
  unfold jwt_decode.
  destruct (jws_load token) as [[alg p]|] eqn:Hload; [|discriminate].
  destruct (String.eqb_spec alg "HS256") as [->|Hne]; cbn [negb]; [|discriminate].
  destruct (hs256_verify token secret_key) eqn:Hsig; cbn [negb]; [|discriminate].
  destruct (validate_iat now p) as [e|[]]; [discriminate|].
  destruct (validate_nbf now p) as [e|[]]; [discriminate|].
  destruct (validate_exp now p) as [e|[]] eqn:Hexp; [discriminate|].
  destruct (validate_aud p) as [e|[]]; [discriminate|].
  destruct (validate_sub p) as [e|[]] eqn:Hsub; [discriminate|].
  destruct (validate_jti p) as [e|[]]; [discriminate|].
  unfold ret. cbn [bind]. intros H. injection H as <-. auto.
Qed.

(** X15. The handler returns a policy only for a header ["Bearer " + token]
    whose token has the algorithm HS256 in its header and carries a
    signature that verifies under the secret; if the token has an
    [exp] claim, that moment lies in the future (a token without one
    does not expire), and if it has a ["sub"] claim, that is a string.
    The policy it returns has a string for its principal, the subject
    or ["unknown"], and allows [execute-api:Invoke] on the method of
    the event and on nothing else. *)
Theorem handler_sound :
  forall (env : environment) (cache : option string) (ev : event) (p : policy),
    fst (handler env cache ev) = ret p ->
    prefix "Bearer " (header ev) = true /\
    exists (secret_key arn : string) (payload : dict pyval),
      fst (get_jwt_secret env cache) = ret secret_key /\
      jws_load (bearer_token ev) = Some ("HS256", payload) /\
      hs256_verify (bearer_token ev) secret_key = true /\
      (forall (v : pyval) (exp : Z),
         dict_get "exp" payload = Some v -> int v = ret exp ->
         now env < exp * 1000000) /\
      methodArn ev = Some arn /\
      principalId p = dict_get_default "sub" (PStr "unknown") payload /\
      (exists subject : string, principalId p = PStr subject) /\
      (dict_get "sub" payload = None \/
       exists subject : string, dict_get "sub" payload = Some (PStr subject)) /\
      Statement (policyDocument p) =
        [ {| Action := "execute-api:Invoke"; Effect := "Allow"; Resource := arn |} ].
Proof.
  intros env cache ev p. rewrite handler_of_try. unfold handler_try.
  fold (bearer_token ev).
  destruct (prefix "Bearer " (header ev)); cbn [negb]; [|discriminate].
  destruct (get_jwt_secret env cache) as [[e|secret_key] cache']; [discriminate|].
  unfold ret at 1. cbn [bind fst].
  destruct (jwt_decode (now env) (bearer_token ev) secret_key) as [e|payload] eqn:Hd;
    [discriminate|].
  cbn [bind].
  destruct (methodArn ev) as [arn|]; [|discriminate].
  unfold ret. cbn [bind fst]. intros H. injection H as <-.
  apply jwt_decode_sound in Hd as (Hload & Hsig & Hexp & Hsub).
  assert (Hcases : dict_get "sub" payload = None \/
                   exists subject : string, dict_get "sub" payload = Some (PStr subject)).
  { unfold validate_sub in Hsub.
    destruct (dict_get "sub" payload) as [[| | |subject| |]|]; try discriminate; eauto. }
  split; [reflexivity|]. exists secret_key, arn, payload.
  split; [reflexivity|]. split; [exact Hload|]. split; [exact Hsig|].
  split; [intros v exp Hget Hint; eapply validate_exp_ok; eassumption|].
  split; [reflexivity|]. split; [reflexivity|]. split; [|split; [exact Hcases|reflexivity]].
  cbn [generate_policy principalId]. unfold dict_get_default.
  destruct Hcases as [-> | [subject ->]]; eauto.
Qed.

(** A request with a token that decodes is accepted, with the policy of
    [generate_policy] for the token's subject. *)
Lemma handler_accepts (env : environment) (cache : option string) (ev : event)
    (token secret_key arn : string) (payload : dict pyval) :
  authorizationToken ev = Some ("Bearer " ++ token) ->
  methodArn ev = Some arn ->
  fst (get_jwt_secret env cache) = ret secret_key ->
  jwt_decode (now env) token secret_key = ret payload ->
  fst (handler env cache ev) =
  ret (generate_policy (dict_get_default "sub" (PStr "unknown") payload)
                       "Allow" arn (Some payload)).
Proof.
  intros Hev Harn Hsecret Hdecode.
  rewrite handler_of_try. unfold handler_try, header.
  rewrite Hev, prefix_bearer, strip_bearer. cbn [negb].
  destruct (get_jwt_secret env cache) as [r cache']. cbn [fst] in Hsecret.
  rewrite Hsecret. unfold ret. cbn [bind]. rewrite Hdecode, Harn. reflexivity.
Qed.

(** A token is refused from the second of its [exp] on. *)
Lemma handler_rejects_due (env : environment) (cache : option string) (ev : event)
    (token alg : string) (payload : dict pyval) (v : pyval) (exp : Z) :
  authorizationToken ev = Some ("Bearer " ++ token) ->
  jws_load token = Some (alg, payload) ->
  dict_get "exp" payload = Some v ->
  int v = ret exp ->
  exp * 1000000 <= now env ->
  fst (handler env cache ev) = raise (PyException "Unauthorized").
Proof.
  intros Hev Hload Hexp Hint Hdue.
  rewrite handler_of_try. unfold handler_try, header.
  rewrite Hev, prefix_bearer, strip_bearer. cbn [negb].
  destruct (get_jwt_secret env cache) as [[e|secret_key] cache']; [reflexivity|].
  destruct (jwt_decode_expired (now env) token secret_key alg payload v exp)
    as [e He]; try assumption.
  unfold ret. cbn [bind]. rewrite He. reflexivity.
Qed.

Lemma generate_policy_context (principal_id : pyval) (effect resource : string)
    (payload : dict pyval) :
  payload <> [] ->
  context (generate_policy principal_id effect resource (Some payload)) =
  Some {| userId := str (dict_get_default "sub" (PStr "") payload);
          email := str (dict_get_default "email" (PStr "") payload);
          scope := str (dict_get_default "scope" (PStr "") payload) |}.
Proof.
  destruct payload; [congruence | reflexivity].
Qed.

End Handler.

(** *** The facts on the example processes *)

Import Examples MoreExamples.

Lemma get_jwt_secret_sticky_witness :
  get_jwt_secret demo_rotated_env (Some "s3cret") = (ret "s3cret", Some "s3cret").
Proof.
  apply (get_jwt_secret_sticky demo_authorizer_env demo_rotated_env None
           (Some "s3cret") "s3cret").
  reflexivity.
Defined.

Lemma handler_uses_cached_secret_witness :
  @handler demo_builtins demo_jwt demo_authorizer_env (Some "s3cret")
           (demo_event "Bearer valid.token") =
  @handler demo_builtins demo_jwt demo_rotated_env (Some "s3cret")
           (demo_event "Bearer valid.token").
Proof.
  apply (@handler_uses_cached_secret demo_builtins demo_jwt
           demo_authorizer_env demo_rotated_env "s3cret"
           (demo_event "Bearer valid.token")).
  reflexivity.
Defined.

Lemma handler_secret_unavailable_witness :
  @handler demo_builtins demo_jwt demo_outage_env None
           (demo_event "Bearer valid.token") =
  (raise (PyException "Unauthorized"), None).
Proof.
  apply (@handler_secret_unavailable demo_builtins demo_jwt demo_outage_env
           (demo_event "Bearer valid.token") (ClientError "GetParameter")).
  reflexivity.
Defined.

Lemma handler_sound_witness :
  exists (secret_key arn : string) (payload : dict pyval),
    @jws_load demo_jwt (bearer_token (demo_event "Bearer valid.token")) =
      Some ("HS256", payload) /\
    @hs256_verify demo_jwt (bearer_token (demo_event "Bearer valid.token")) secret_key
      = true /\
    methodArn (demo_event "Bearer valid.token") = Some arn.
Proof.
  destruct (@handler_sound demo_builtins demo_jwt demo_authorizer_env None
              (demo_event "Bearer valid.token") _ eq_refl)
    as (_ & secret_key & arn & payload & _ & H2 & H3 & _ & H5 & _).
  exists secret_key, arn, payload. auto.
Defined.

End AuthorizerMore.

(** ** Facts about generate_jwt.py *)

Module GenerateJwtFacts.
Import Authorizer AuthorizerFacts AuthorizerMore GenerateJwt MoreExamples.

Section RoundTrip.

Context {builtins : Builtins} {pyjwt : PyJWT} {encoder : PyJWTEncode}.

Lemma token_payload_claims (issued : datetime) (user_id : string)
    (email scope : option string) (expiry_hours : Z) :
  let payload := token_payload issued user_id email scope expiry_hours in
  dict_get "sub" payload = Some (PStr user_id) /\
  dict_get "iat" payload = Some (numeric_date issued) /\
  dict_get "exp" payload = Some (numeric_date (issued + timedelta_hours expiry_hours)) /\
  dict_get "nbf" payload = None /\
  dict_get "aud" payload = None /\
  dict_get "jti" payload = None /\
  dict_get_default "email" (PStr "") payload = PStr (or_empty email) /\
  dict_get_default "scope" (PStr "") payload = PStr (or_empty scope) /\
  payload <> [].
Proof.
  unfold token_payload, dict_get_default, or_empty.
  destruct email as [e|]; [destruct (String.eqb_spec e "") as [->|?]|];
    (destruct scope as [s|]; [destruct (String.eqb_spec s "") as [->|?]|]);
    cbn; repeat split; discriminate.
Qed.

(** X16. A token of [generate_token], presented to the authorizer at or
    after the moment it was issued, is accepted until the second it
    expires and rejected from then on.  When it is accepted, the
    principal is the user the token was made for, and the context holds
    that user and the email and the scope given, or the empty string
    for one that was not given. *)
Theorem generated_token_lifetime :
  forall (issued : datetime) (secret_key user_id : string)
         (email scope : option string) (expiry_hours : Z)
         (env : environment) (cache : option string) (ev : event) (arn : string),
    let payload := token_payload issued user_id email scope expiry_hours in
    let token := generate_token issued secret_key user_id email scope expiry_hours in
    let expiry := (issued + timedelta_hours expiry_hours) / 1000000 * 1000000 in
    jws_load token = Some ("HS256", payload) ->
    hs256_verify token secret_key = true ->
    fst (get_jwt_secret env cache) = ret secret_key ->
    authorizationToken ev = Some ("Bearer " ++ token) ->
    methodArn ev = Some arn ->
    issued <= now env ->
    (now env < expiry ->
     exists p : policy,
       fst (handler env cache ev) = ret p /\
       principalId p = PStr user_id /\
       context p = Some {| userId := user_id;
                           email := or_empty email;
                           scope := or_empty scope |}) /\
    (expiry <= now env ->
     fst (handler env cache ev) = raise (PyException "Unauthorized")).
Proof.
  intros issued secret_key user_id email scope expiry_hours env cache ev arn
         payload token expiry Hload Hsig Hsecret Hev Harn Hissued.
  destruct (token_payload_claims issued user_id email scope expiry_hours)
    as (Hsub & Hiat & Hexp & Hnbf & Haud & Hjti & Hemail & Hscope & Hne).
  fold payload in Hsub, Hiat, Hexp, Hnbf, Haud, Hjti, Hemail, Hscope, Hne.
  split.
  - intros Hvalid.
    assert (Hdecode : jwt_decode (now env) token secret_key = ret payload).
    { unfold jwt_decode. rewrite Hload, Hsig. cbn [String.eqb negb].
      replace (String.eqb "HS256" "HS256") with true by reflexivity. cbn [negb].
      unfold validate_iat, validate_nbf, validate_exp, validate_aud,
        validate_sub, validate_jti.
      rewrite Hiat, Hnbf, Hexp, Haud, Hsub, Hjti. unfold numeric_date.
      cbn [int ret bind].
      assert (issued / 1000000 * 1000000 <= issued).
      { rewrite Z.mul_comm. apply Z.mul_div_le. lia. }
      destruct (Z.ltb_spec (now env) (issued / 1000000 * 1000000)); [lia|].
      cbn [bind].
      destruct (Z.leb_spec ((issued + timedelta_hours expiry_hours) / 1000000 * 1000000)
                           (now env)); [unfold expiry in Hvalid; lia|].
      reflexivity. }
    eexists. split; [eapply handler_accepts; eassumption|].
    rewrite generate_policy_context by assumption.
    rewrite Hemail, Hscope. unfold dict_get_default. rewrite Hsub.
    split; reflexivity.
  - intros Hexpired.
    apply (handler_rejects_due env cache ev token "HS256" payload
             (numeric_date (issued + timedelta_hours expiry_hours))
             ((issued + timedelta_hours expiry_hours) / 1000000));
      try assumption; reflexivity.
Qed.

End RoundTrip.

Import Examples.

Lemma generated_token_lifetime_witness :
  exists p : policy,
    fst (@handler demo_builtins demo_decoder demo_authorizer_env None
                  (demo_event "Bearer generated.token")) = ret p /\
    principalId p = PStr "u1" /\
    context p = Some {| userId := "u1"; email := "u1@example.org"; scope := "" |}.
Proof.
  assert (H := @generated_token_lifetime demo_builtins demo_decoder demo_encoder
                 demo_issued "s3cret" "u1" (Some "u1@example.org") None 48
                 demo_authorizer_env None (demo_event "Bearer generated.token")
                 demo_arn eq_refl eq_refl eq_refl eq_refl eq_refl).
  destruct H as [H _]; [vm_compute; discriminate|].
  apply H. vm_compute. reflexivity.
Defined.

End GenerateJwtFacts.

(** ** More facts about the ingest handler *)

Module IngestMore.
Import Ingest IngestFacts.

Local Open Scope list_scope.

Section Handler.

Context {json : Json}.

(** *** Rejections *)

(** X17. A body that is text but not JSON is answered with status 400 and
    the invalid-JSON error, and the table is left as it was. *)
Theorem handler_invalid_json :
  forall (env : environment) (table : list item) (ev : event) (s : string),
    body ev = Some (PStr s) ->
    json_loads s = None ->
    handler env table ev = (invalid_payload_response, table) /\
    statusCode (fst (handler env table ev)) = 400.
Proof.
  intros env table ev s Hbody Hloads.
  assert (H : handler env table ev = (invalid_payload_response, table)).
  { unfold handler, handler_try. rewrite Hbody. cbn [loads]. now rewrite Hloads. }
  now rewrite H.
Qed.

(** The handler on a body that parses. *)
Lemma handler_try_parsed (env : environment) (table : list item) (ev : event)
    (s : string) (v : pyval) :
  body ev = Some (PStr s) ->
  json_loads s = Some v ->
  handler_try env table ev =
  match v with
  | PDict d =>
      if negb (dict_contains "userId" d) || negb (dict_contains "data" d)
      then (ret missing_field_response, table)
      else
        match put_item_fault env with
        | Some (ClientError op) =>
            (ret (create_response 500 [("error", PStr "Database error");
                                       ("details", PStr op)]),
             table)
        | Some e => (raise e, table)
        | None => (ret (acknowledgment (item_of env ev d)),
                   put_item table (item_of env ev d))
        end
  | _ =>
      match missing_required_fields v with
      | inl e => (raise e, table)
      | inr true => (ret missing_field_response, table)
      | inr false => (raise (AttributeError "object has no attribute 'get'"), table)
      end
  end.
Proof.
  intros Hbody Hloads.
  destruct v as [| b | n | s' | l | d];
    try (unfold handler_try; rewrite Hbody; cbn [loads]; rewrite Hloads;
         unfold ret at 1; cbv iota beta;
         destruct (missing_required_fields _) as [e|[]]; reflexivity).
  apply (handler_try_object env table ev s d); auto.
Qed.

(** X18. A body that parses to anything but an object is never stored: the
    answer has status 400 or 500 and the table is left as it was.  A
    number, a truth value or [null] gives status 500. *)
Theorem handler_non_object_body :
  forall (env : environment) (table : list item) (ev : event) (s : string) (v : pyval),
    body ev = Some (PStr s) ->
    json_loads s = Some v ->
    (forall d, v <> PDict d) ->
    snd (handler env table ev) = table /\
    (statusCode (fst (handler env table ev)) = 400 \/
     statusCode (fst (handler env table ev)) = 500) /\
    ((v = PNone \/ (exists b, v = PBool b) \/ (exists n, v = PInt n)) ->
     statusCode (fst (handler env table ev)) = 500).
Proof.
  intros env table ev s v Hbody Hloads Hv. unfold handler.
  rewrite (handler_try_parsed env table ev s v Hbody Hloads).
  destruct v as [| b | n | s' | l | d]; try (exfalso; now apply (Hv d));
    (destruct (missing_required_fields _) as [e|[]] eqn:Hm;
     cbn [fst snd statusCode create_response missing_field_response raise ret];
     (split; [reflexivity | split; [auto|]]);
     try (intros _; reflexivity);
     try (cbn in Hm; discriminate Hm);
     intros [H|[[? H]|[? H]]]; discriminate).
Qed.

(** *** Storage failures *)

(** X19. When [put_item] raises for a valid request, the answer has status
    500 and the table is left as it was: a [ClientError] is reported as
    a database error with its text, any other exception as an internal
    error. *)
Theorem handler_storage_failure :
  forall (env : environment) (table : list item) (ev : event)
         (s : string) (d : dict pyval) (e : pyexn),
    body ev = Some (PStr s) ->
    json_loads s = Some (PDict d) ->
    dict_contains "userId" d = true ->
    dict_contains "data" d = true ->
    put_item_fault env = Some e ->
    snd (handler env table ev) = table /\
    statusCode (fst (handler env table ev)) = 500 /\
    response_body (fst (handler env table ev)) =
    match e with
    | ClientError op => PDict [("error", PStr "Database error"); ("details", PStr op)]
    | _ => PDict [("error", PStr "Internal server error")]
    end.
Proof.
  intros env table ev s d e Hbody Hloads Huser Hdata Hput. unfold handler.
  rewrite (handler_try_object env table ev s d) by auto.
  rewrite Huser, Hdata, Hput. cbn [negb orb].
  destruct e; cbn; repeat split.
Qed.

(** *** What every answer has in common *)

(** X20. The handler always answers, with status 200, 400 or 500 and with
    the same CORS headers whatever the status.  It writes only when it
    answers 200, and then one item, whose [id] is the value drawn from
    [uuid4] and whose [id] and [timestamp] are the ones in the answer;
    with any other status the table is left as it was. *)
Theorem handler_writes_only_on_success :
  forall (env : environment) (table : list item) (ev : event),
    let answer := fst (handler env table ev) in
    let table' := snd (handler env table ev) in
    (statusCode answer = 200 \/ statusCode answer = 400 \/ statusCode answer = 500) /\
    headers answer = headers (create_response 200 []) /\
    (statusCode answer <> 200 -> table' = table) /\
    (statusCode answer = 200 ->
     exists it : item,
       table' = put_item table it /\
       id it = uuid4 env /\
       answer = acknowledgment it).
Proof.
  intros env table ev answer table'. subst answer table'. unfold handler.
  destruct (handler_try_outcome env table ev)
    as [[e ->] | [(status & b & Hs & ->) | [d ->]]]; cbn [fst snd raise ret].
  - cbn. repeat split; auto. discriminate.
  - cbn [statusCode create_response headers]. repeat split.
    + destruct Hs as [-> | ->]; auto.
    + intros H. destruct Hs; subst; discriminate.
  - cbn [statusCode create_response headers acknowledgment]. repeat split; auto.
    + congruence.
    + intros _. exists (item_of env ev d). auto.
Qed.

End Handler.

(** *** Retries *)

(** X21. The handler does not recognize a request it has seen: the same
    valid request handled twice, with two different draws of [uuid4]
    that are not in the table, is stored twice, as two items that carry
    the same user, event type and data. *)
Theorem handler_retry_stores_again :
  forall {json : Json} (env1 env2 : environment) (table : list item) (ev : event)
         (s : string) (d : dict pyval),
    body ev = Some (PStr s) ->
    json_loads s = Some (PDict d) ->
    dict_contains "userId" d = true ->
    dict_contains "data" d = true ->
    put_item_fault env1 = None ->
    put_item_fault env2 = None ->
    uuid4 env1 <> uuid4 env2 ->
    (forall old, In old table -> id old <> uuid4 env1 /\ id old <> uuid4 env2) ->
    let first := handler env1 table ev in
    let second := handler env2 (snd first) ev in
    snd second = table ++ [item_of env1 ev d; item_of env2 ev d] /\
    statusCode (fst first) = 200 /\
    statusCode (fst second) = 200 /\
    userId (item_of env1 ev d) = userId (item_of env2 ev d) /\
    eventType (item_of env1 ev d) = eventType (item_of env2 ev d) /\
    data (item_of env1 ev d) = data (item_of env2 ev d).
Proof.
  intros json env1 env2 table ev s d Hbody Hloads Huser Hdata Hput1 Hput2 Hne Hfresh
         first second.
  subst first second. unfold handler.
  rewrite (handler_try_object env1 table ev s d) by auto.
  rewrite Huser, Hdata, Hput1. cbn [negb orb snd fst ret].
  rewrite (handler_try_object env2 _ ev s d) by auto.
  rewrite Huser, Hdata, Hput2. cbn [negb orb snd fst ret].
  repeat split.
  rewrite (put_item_fresh table) by (intros old Ho; now apply Hfresh).
  rewrite put_item_fresh.
  - now rewrite <- app_assoc.
  - intros old Ho. apply in_app_or in Ho as [Ho|[<-|[]]].
    + now apply Hfresh.
    + cbn. congruence.
Qed.

(** *** The facts on the example requests *)

Import Examples MoreExamples.

Lemma handler_invalid_json_witness :
  @handler demo_json (demo_ingest_env None) []
           (demo_ingest_event (Some (PStr "{userId: "))) =
  (invalid_payload_response, []).
Proof.
  apply (@handler_invalid_json demo_json (demo_ingest_env None) []
           (demo_ingest_event (Some (PStr "{userId: "))) "{userId: ");
    reflexivity.
Defined.

Lemma handler_storage_failure_witness :
  statusCode (fst (@handler demo_json (demo_ingest_env (Some (ClientError "PutItem"))) []
                            (demo_ingest_event (Some (PStr demo_body))))) = 500.
Proof.
  apply (@handler_storage_failure demo_json
           (demo_ingest_env (Some (ClientError "PutItem"))) []
           (demo_ingest_event (Some (PStr demo_body))) demo_body demo_parsed
           (ClientError "PutItem"));
    reflexivity.
Defined.

Lemma handler_non_object_body_witness :
  let run := @handler demo_json_values (demo_ingest_env None) []
                      (demo_ingest_event (Some (PStr "42"))) in
  snd run = [] /\ statusCode (fst run) = 500.
Proof.
  intros run.
  destruct (@handler_non_object_body demo_json_values (demo_ingest_env None) []
              (demo_ingest_event (Some (PStr "42"))) "42" (PInt 42) eq_refl eq_refl)
    as (H1 & _ & H3).
  - discriminate.
  - split; [exact H1|]. apply H3. right. right. now exists 42.
Defined.

Lemma handler_retry_stores_again_witness :
  let ev := demo_ingest_event (Some (PStr demo_body)) in
  let first := @handler demo_json (demo_ingest_env None) [] ev in
  let second := @handler demo_json demo_retry_env (snd first) ev in
  snd second =
  [item_of (demo_ingest_env None) ev demo_parsed; item_of demo_retry_env ev demo_parsed].
Proof.
  intros ev first second.
  apply (@handler_retry_stores_again demo_json (demo_ingest_env None) demo_retry_env []
           ev demo_body demo_parsed);
    try reflexivity.
  - discriminate.
  - intros old [].
Defined.

End IngestMore.
